(** * sqlwrapper: the MySQL driver capability and the statement directives

    A shallow embedding of
      - [dbcontext/drvs/mysql/mysql.go]  (column classification, index and
        foreign-key extraction),
      - [stmt/directive.go]              (the [StmtDirective] interface and the
        built-in text directive),
      - [stmt/directive/replace.go]      (the [<replace>] directive),
    followed by the properties of these functions.

    Conventions.  A Go function that can panic returns an [outcome]; its
    ordinary results, the [error] result included, are the tuple inside
    [Return].  A Go [error] result is an [option error] ([None] is [nil]).
    Slices are lists ([nil] is the nil slice).  Go's [int] is a [Z] kept in
    the 64-bit signed range by [int_wrap].  What the [database/sql] package,
    the driver and [etree] answer is part of the input: a [Conn] holds the
    answer to every query, a [Row] holds what [Scan] delivers. *)

From Stdlib Require Import String Ascii List ZArith Bool Lia.
Import ListNotations.
Local Open Scope Z_scope.
Local Open Scope string_scope.

Set Implicit Arguments.

(* ===================================================================== *)
(** ** Go runtime: reflect types, errors, panics, loops                   *)
(* ===================================================================== *)

(** The [reflect.Type] values a column's [ScanType()] is compared with
    (mysql.go, lines 46-63), and any other type. *)
Inductive ScanType : Type :=
| scanTypeFloat32
| scanTypeFloat64
| scanTypeInt8
| scanTypeInt16
| scanTypeInt32
| scanTypeInt64
| scanTypeNullFloat
| scanTypeNullInt
| scanTypeNullTime
| scanTypeUint8
| scanTypeUint16
| scanTypeUint32
| scanTypeUint64
| scanTypeRawBytes
| scanTypeUnknown
| scanTypeOther (name : string).

(** An argument of [fmt.Errorf]. *)
Inductive fmt_arg : Type :=
| ArgString (s : string)
| ArgInt (z : Z)
| ArgType (t : ScanType).

(** A Go [error] value (also used for the value of a panic).  [Errorf] keeps
    the format string and the arguments of a [fmt.Errorf] call of the source;
    [ExternalError] is an error made outside the source ([database/sql], the
    driver, the [reflect] package). *)
Inductive error : Type :=
| Errorf (format : string) (args : list fmt_arg)
| ExternalError (msg : string).

(** The result of running a Go function: it returns, or it panics. *)
Inductive outcome (A : Type) : Type :=
| Return (a : A)
| Panic (v : error).
Arguments Panic {A} v.

(** One pass through a loop body: go on with a new state, [return] from the
    enclosing function, or panic. *)
Inductive flow (S R : Type) : Type :=
| Next (s : S)
| Ret (r : R)
| Abort (v : error).
Arguments Next {S R} s.
Arguments Ret {S R} r.
Arguments Abort {S R} v.

(** [for i, x := range xs { body }] with loop-carried state [s]; [i] counts
    from [i0].  A [for rows.Next() { ... }] loop is the same loop over the
    rows of the cursor, its body ignoring [i]. *)
Fixpoint for_range (X S R : Type) (body : nat -> X -> S -> flow S R)
         (i0 : nat) (xs : list X) (s : S) : flow S R :=
  match xs with
  | [] => Next s
  | x :: xs' =>
      match body i0 x s with
      | Next s' => for_range body (Datatypes.S i0) xs' s'
      | Ret r => Ret r
      | Abort v => Abort v
      end
  end.

(** Go's [int] on a 64-bit platform: the result of an addition is reduced
    to the signed 64-bit range. *)
Definition int_wrap (z : Z) : Z := (z + 2 ^ 63) mod 2 ^ 64 - 2 ^ 63.

Definition int_add (a b : Z) : Z := int_wrap (a + b).

(* ===================================================================== *)
(** ** database/sql and the driver, as far as the source observes them    *)
(* ===================================================================== *)

Module Sql.

(** [sql.NullString]. *)
Record NullString : Type := { String_ : string; Valid : bool }.

(** What [Scan] does with one row: it fills the destinations or fails. *)
Inductive scanned (A : Type) : Type :=
| Scanned (a : A)
| ScanFailed (e : error).
Arguments ScanFailed {A} e.

(** A row under the cursor (or a [*sql.Row]).  [Scan] is called by the
    source with three destination lists; each field is what that call
    delivers on this row. *)
Record Row : Type := {
  Scan_NullString : scanned NullString;
  Scan_bool_string_int : scanned (bool * string * Z);
  Scan_string_int_string_string : scanned (string * Z * string * string)
}.

(** [sql.ColumnType], with the two methods the source calls. *)
Record ColumnType : Type := {
  Name : string;
  DatabaseTypeName : string;
  ScanType_ : ScanType
}.

(** The driver's private [mysqlField]; the source reads [length] and
    [flags] through reflection. *)
Record mysqlField : Type := {
  length_ : Z;
  flags_ : Z
}.

(** [*sql.Rows]: the answer of [ColumnTypes()], the private
    [rowsi.rs.columns] slice, and the rows [Next()] steps through. *)
Record Rows : Type := {
  ColumnTypes : error + list ColumnType;
  rs_columns : list mysqlField;
  rows_ : list Row
}.

(** [*sql.Conn]: the answer to each query text with its arguments. *)
Record Conn : Type := {
  QueryContext : string -> list string -> error + Rows;
  QueryRowContext : string -> list string -> Row
}.

End Sql.

(* ===================================================================== *)
(** ** dbcontext/drvs/mysql/mysql.go                                      *)
(* ===================================================================== *)

Module Mysql.
Import Sql.

(** [dbcontext.Col]. *)
Record Col : Type := {
  ColumnType_ : ColumnType;
  DataType : string
}.

(** lines 21-44 *)
Definition DataTypes_var : list string :=
  [ "float32"; "float64";
    "bool"; "int8"; "uint8"; "int16"; "uint16"; "int32"; "uint32";
    "int64"; "uint64";
    "time";
    "bit"; "json"; "string" ].

(** lines 427-429 *)
Definition DataTypes : list string := DataTypes_var.

(** line 67 *)
Definition flagUnsigned : Z := Z.shiftl 1 5.

(** lines 431-433: [fmt.Sprintf] with one [%s] between two backquotes. *)
Definition Quote (identifier : string) : string :=
  "`" ++ identifier ++ "`".

(** lines 109-111: the closure [bad], called on the switch's uncovered
    branches. *)
Definition bad {A : Type} (scanType : ScanType) (databaseTypeName : string)
  : outcome A :=
  Panic (Errorf "Unknown column type: scantype=%#v databaseTypeName=%+q"
                [ArgType scanType; ArgString databaseTypeName]).

(** lines 107-202: the switch that assigns [dataType]. *)
Definition columnDataType (scanType : ScanType) (databaseTypeName : string)
           (length : Z) (isUnsigned : bool) : outcome string :=
  match scanType with
  (* Float types *)
  | scanTypeFloat32 => Return "float32"
  | scanTypeFloat64 => Return "float64"
  | scanTypeNullFloat =>
      if databaseTypeName =? "FLOAT" then Return "float32"
      else if databaseTypeName =? "DOUBLE" then Return "float64"
      else bad scanType databaseTypeName
  (* Int types, including bool *)
  | scanTypeInt8 =>
      if (length =? 1)%Z then Return "bool" else Return "int8"
  | scanTypeInt16 => Return "int16"
  | scanTypeInt32 => Return "int32"
  | scanTypeInt64 => Return "int64"
  | scanTypeUint8 => Return "uint8"
  | scanTypeUint16 => Return "uint16"
  | scanTypeUint32 => Return "uint32"
  | scanTypeUint64 => Return "uint64"
  | scanTypeNullInt =>
      if databaseTypeName =? "TINYINT" then
        if isUnsigned then Return "uint8"
        else if (length =? 1)%Z then Return "bool" else Return "int8"
      else if (databaseTypeName =? "SMALLINT") || (databaseTypeName =? "YEAR") then
        if isUnsigned then Return "uint16" else Return "int16"
      else if (databaseTypeName =? "MEDIUMINT") || (databaseTypeName =? "INT") then
        if isUnsigned then Return "uint32" else Return "int32"
      else if databaseTypeName =? "BIGINT" then
        if isUnsigned then Return "uint64" else Return "int64"
      else bad scanType databaseTypeName
  (* Time types *)
  | scanTypeNullTime => Return "time"
  (* String types *)
  | scanTypeRawBytes =>
      if databaseTypeName =? "BIT" then Return "bit"
      else if databaseTypeName =? "JSON" then Return "json"
      else Return "string"
  | scanTypeUnknown | scanTypeOther _ => bad scanType databaseTypeName
  end.

(** lines 82-209: the body of the loop over [columnTypes].  [Index(i)]
    on the reflected [columns] slice panics when [i] is out of range. *)
Definition columnBody (rows : Rows) (i : nat) (columnType : ColumnType)
           (columns : list Col) : flow (list Col) (list Col * option error) :=
  match nth_error (rs_columns rows) i with
  | None => Abort (ExternalError "reflect: slice index out of range")
  | Some field =>
      let length := length_ field in
      let flags := flags_ field in
      let isUnsigned := negb (Z.land flags flagUnsigned =? 0)%Z in
      let databaseTypeName := DatabaseTypeName columnType in
      let scanType := ScanType_ columnType in
      match columnDataType scanType databaseTypeName length isUnsigned with
      | Panic v => Abort v
      | Return dataType =>
          Next (columns ++ [ {| ColumnType_ := columnType; DataType := dataType |} ])%list
      end
  end.

(** lines 70-213 *)
Definition ExtractQueryResultColumns (conn : Conn) (query : string)
  : outcome (list Col * option error) :=
  match QueryContext conn query [] with
  | inl err => Return (nil, Some err)
  | inr rows =>
      match ColumnTypes rows with
      | inl err => Return (nil, Some err)
      | inr columnTypes =>
          match for_range (columnBody rows) 0 columnTypes nil with
          | Next columns => Return (columns, None)
          | Ret r => Return r
          | Abort v => Panic v
          end
      end
  end.

(** lines 244-246 *)
Definition ExtractColumns (conn : Conn) (tableName : string)
  : outcome (list Col * option error) :=
  ExtractQueryResultColumns conn ("SELECT * FROM `" ++ tableName ++ "`").

(** lines 435-447 *)
Definition extractDBName (conn : Conn) : string * option error :=
  match Scan_NullString (QueryRowContext conn "SELECT DATABASE()" []) with
  | ScanFailed err => ("", Some err)
  | Scanned dbName =>
      if String_ dbName =? "" then ("", Some (Errorf "No db selected" []))
      else (String_ dbName, None)
  end.

(** lines 312-319: the text of the query on [INFORMATION_SCHEMA.STATISTICS]. *)
Definition indexQuery : string := "
	SELECT 
		NON_UNIQUE, COLUMN_NAME, SEQ_IN_INDEX 
	FROM
		INFORMATION_SCHEMA.STATISTICS
	WHERE
		TABLE_SCHEMA=? AND TABLE_NAME=? AND INDEX_NAME=?
	ORDER BY SEQ_IN_INDEX".

(** lines 327-341: the body of the loop over the rows of the index.  The
    state is [(nonUnique, prevSeq, columnNames)]. *)
Definition indexBody (_ : nat) (row : Row) (st : bool * Z * list string)
  : flow (bool * Z * list string) (list string * bool * bool * option error) :=
  let '(nonUnique, prevSeq, columnNames) := st in
  match Scan_bool_string_int row with
  | ScanFailed err => Ret (nil, false, false, Some err)
  | Scanned (nonUnique', columnName, seq) =>
      (* Check seq. *)
      if negb (seq =? int_add prevSeq 1)%Z then
        Abort (Errorf "Bad SEQ_IN_INDEX, prev is %d, current is %d"
                      [ArgInt prevSeq; ArgInt seq])
      else
        Next (nonUnique', seq, (columnNames ++ [columnName])%list)
  end.

(** lines 306-352; the results are
    [(columnNames, isPrimary, isUnique, err)]. *)
Definition ExtractIndex (conn : Conn) (tableName indexName : string)
  : outcome (list string * bool * bool * option error) :=
  match extractDBName conn with
  | (_, Some err) => Return (nil, false, false, Some err)
  | (dbName, None) =>
      match QueryContext conn indexQuery [dbName; tableName; indexName] with
      | inl err => Return (nil, false, false, Some err)
      | inr rows =>
          match for_range indexBody 0 (rows_ rows) (true, 0, nil) with
          | Abort v => Panic v
          | Ret r => Return r
          | Next (nonUnique, _, columnNames) =>
              if (List.length columnNames =? 0)%nat then
                Return (nil, false, false,
                        Some (Errorf "Index %+q in table %+q not found"
                                     [ArgString indexName; ArgString tableName]))
              else
                Return (columnNames, indexName =? "PRIMARY", negb nonUnique, None)
          end
      end
  end.

(** lines 388-394: the text of the query on
    [INFORMATION_SCHEMA.KEY_COLUMN_USAGE]. *)
Definition fkQuery : string := "
		SELECT
			COLUMN_NAME, ORDINAL_POSITION, REFERENCED_TABLE_NAME, REFERENCED_COLUMN_NAME
		FROM
			INFORMATION_SCHEMA.KEY_COLUMN_USAGE
		WHERE
			TABLE_SCHEMA=? AND TABLE_NAME=? AND CONSTRAINT_NAME=? ORDER BY ORDINAL_POSITION".

(** lines 400-417: the body of the loop over the rows of the foreign key.
    The state is [(prevPos, refTableName, columnNames, refColumnNames)]. *)
Definition fkBody (_ : nat) (row : Row)
           (st : Z * string * list string * list string)
  : flow (Z * string * list string * list string)
         (list string * string * list string * option error) :=
  let '(prevPos, refTableName, columnNames, refColumnNames) := st in
  match Scan_string_int_string_string row with
  | ScanFailed err => Ret (nil, "", nil, Some err)
  | Scanned (columnName, pos, refTableName', refColumnName) =>
      (* Check pos. *)
      if negb (pos =? int_add prevPos 1)%Z then
        Abort (Errorf "Bad ORDINAL_POSITION, prev is %d, current is %d"
                      [ArgInt prevPos; ArgInt pos])
      else
        Next (pos, refTableName',
              (columnNames ++ [columnName])%list,
              (refColumnNames ++ [refColumnName])%list)
  end.

(** lines 382-425; the results are
    [(columnNames, refTableName, refColumnNames, err)]. *)
Definition ExtractFK (conn : Conn) (tableName fkName : string)
  : outcome (list string * string * list string * option error) :=
  match extractDBName conn with
  | (_, Some err) => Return (nil, "", nil, Some err)
  | (dbName, None) =>
      match QueryContext conn fkQuery [dbName; tableName; fkName] with
      | inl err => Return (nil, "", nil, Some err)
      | inr rows =>
          match for_range fkBody 0 (rows_ rows) (0, "", nil, nil) with
          | Abort v => Panic v
          | Ret r => Return r
          | Next (_, refTableName, columnNames, refColumnNames) =>
              if (List.length columnNames =? 0)%nat then
                Return (nil, "", nil,
                        Some (Errorf "FK %+q in table %+q not found"
                                     [ArgString fkName; ArgString tableName]))
              else
                Return (columnNames, refTableName, refColumnNames, None)
          end
      end
  end.

End Mysql.

(* ===================================================================== *)
(** ** etree, as far as the directives observe it                         *)
(* ===================================================================== *)

Module Etree.

(** [etree.Attr]. *)
Record Attr : Type := { Key : string; Value : string }.

(** [*etree.Element]: its tag, its attributes in document order and the
    answer of its [Text()] method. *)
Record Element : Type := {
  Tag : string;
  Attr_ : list Attr;
  Text : string
}.

(** [etree.Token], the interface of the nodes of a document. *)
Inductive Token : Type :=
| TokElement (elem : Element)
| TokCharData (Data : string)
| TokComment (Data : string)
| TokDirective (Data : string)
| TokProcInst (Target Inst : string).

(** [elem.SelectAttrValue(key, dflt)] for a key without a namespace
    prefix: the value of the first attribute with that key, else
    [dflt]. *)
Fixpoint selectAttrValue (attrs : list Attr) (key dflt : string) : string :=
  match attrs with
  | [] => dflt
  | a :: attrs' =>
      if Key a =? key then Value a else selectAttrValue attrs' key dflt
  end.

Definition SelectAttrValue (elem : Element) (key dflt : string) : string :=
  selectAttrValue (Attr_ elem) key dflt.

End Etree.

(* ===================================================================== *)
(** ** stmt/directive.go                                                  *)
(* ===================================================================== *)

Module Stmt.
Import Etree.

(** lines 9-27: the interface.  A method with a pointer receiver that
    assigns to the receiver's fields returns the receiver's new value.
    [ProcessQueryResult] works in place on the two slices it is handed:
    it returns their new contents.  The [ctx] and [stmt] arguments of
    [Initialize] have types declared outside these files. *)
Class StmtDirective (D : Type) : Type := {
  Initialize : forall (DBContext StmtInfo : Type),
      DBContext -> StmtInfo -> D -> Token -> outcome (D * option error);
  Generate : D -> string * option error;
  GenerateQuery : D -> string * option error;
  ProcessQueryResult :
    D -> list string -> list Sql.ColumnType ->
    list string * list Sql.ColumnType * option error
}.

(** A value of interface type [StmtDirective]: a concrete type, its
    method set and a value of that type. *)
Record Directive : Type := {
  dyn_type : Type;
  dyn_methods : StmtDirective dyn_type;
  dyn_value : dyn_type
}.

(** lines 29-32 *)
Record textDirective : Type := { data : string }.

(** lines 39-42: the type assertion panics on a token that is not
    character data. *)
Definition textDirective_Initialize (DBContext StmtInfo : Type)
           (ctx : DBContext) (stmt : StmtInfo)
           (d : textDirective) (tok : Token)
  : outcome (textDirective * option error) :=
  match tok with
  | TokCharData Data => Return ({| data := Data |}, None)
  | _ => Panic (ExternalError
                  "interface conversion: etree.Token is not *etree.CharData")
  end.

(** lines 44-46 *)
Definition textDirective_Generate (d : textDirective)
  : string * option error :=
  (data d, None).

(** lines 48-50 *)
Definition textDirective_GenerateQuery (d : textDirective)
  : string * option error :=
  (data d, None).

(** lines 52-54 *)
Definition textDirective_ProcessQueryResult (d : textDirective)
           (resultColumnNames : list string)
           (resultColumnTypes : list Sql.ColumnType)
  : list string * list Sql.ColumnType * option error :=
  (resultColumnNames, resultColumnTypes, None).

#[export] Instance textDirective_StmtDirective : StmtDirective textDirective := {
  Initialize := textDirective_Initialize;
  Generate := textDirective_Generate;
  GenerateQuery := textDirective_GenerateQuery;
  ProcessQueryResult := textDirective_ProcessQueryResult
}.

(** A method call on a value of the interface type goes to the method of
    the concrete type. *)
Definition call_Generate (d : Directive) : string * option error :=
  Generate (StmtDirective := dyn_methods d) (dyn_value d).

Definition call_GenerateQuery (d : Directive) : string * option error :=
  GenerateQuery (StmtDirective := dyn_methods d) (dyn_value d).

(** A text directive as a value of the interface type. *)
Definition Literal (d : textDirective) : Directive :=
  {| dyn_type := textDirective; dyn_methods := _; dyn_value := d |}.

End Stmt.

(* ===================================================================== *)
(** ** stmt/directive/replace.go                                          *)
(* ===================================================================== *)

Module DirectiveReplace.
Import Etree Stmt.

(** lines 11-14 *)
Record replaceDirective : Type := { origin : string; with_ : string }.

(** lines 16-25: the type assertion panics on a token that is not an
    element. *)
Definition replaceDirective_Initialize (DBContext StmtInfo : Type)
           (ctx : DBContext) (stmt : StmtInfo)
           (d : replaceDirective) (tok : Token)
  : outcome (replaceDirective * option error) :=
  match tok with
  | TokElement elem =>
      let with' := SelectAttrValue elem "with" "" in
      if with' =? "" then
        Return (d, Some (Errorf "Missing 'with' attribute in <replace> directive" []))
      else
        Return ({| origin := Text elem; with_ := with' |}, None)
  | _ => Panic (ExternalError
                  "interface conversion: etree.Token is not *etree.Element")
  end.

(** lines 27-29 *)
Definition replaceDirective_Generate (d : replaceDirective)
  : string * option error :=
  (with_ d, None).

(** lines 31-33 *)
Definition replaceDirective_GenerateQuery (d : replaceDirective)
  : string * option error :=
  (origin d, None).

(** lines 35-37 *)
Definition replaceDirective_ProcessQueryResult (d : replaceDirective)
           (resultColumnNames : list string)
           (resultColumnTypes : list Sql.ColumnType)
  : list string * list Sql.ColumnType * option error :=
  (resultColumnNames, resultColumnTypes, None).

#[export] Instance replaceDirective_StmtDirective : StmtDirective replaceDirective := {
  Initialize := replaceDirective_Initialize;
  Generate := replaceDirective_Generate;
  GenerateQuery := replaceDirective_GenerateQuery;
  ProcessQueryResult := replaceDirective_ProcessQueryResult
}.

(** A replace directive as a value of the interface type. *)
Definition Replace (d : replaceDirective) : Directive :=
  {| dyn_type := replaceDirective; dyn_methods := _; dyn_value := d |}.

End DirectiveReplace.

(* ===================================================================== *)
(** ** Notions the properties are stated with                             *)
(* ===================================================================== *)

Module Props.
Import Sql Mysql Etree Stmt DirectiveReplace.

(** The unsigned flag of a field, as line 102 reads it. *)
Definition isUnsigned (field : mysqlField) : bool :=
  negb (Z.land (flags_ field) flagUnsigned =? 0)%Z.

(** A result column declared [TINYINT(1)], signed: the driver reports the
    scan type [int8] when the column is NOT NULL and the nullable wrapper
    [sql.NullInt64] when it is NULLable. *)
Definition tinyint1 (nullable : bool) (ct : ColumnType) (field : mysqlField)
  : Prop :=
  DatabaseTypeName ct = "TINYINT" /\
  isUnsigned field = false /\
  length_ field = 1%Z /\
  ScanType_ ct = (if nullable then scanTypeNullInt else scanTypeInt8).

(** The database type names of the float and of the integer families. *)
Definition floatFamilies : list string := ["FLOAT"; "DOUBLE"].

Definition intFamilies : list string :=
  ["TINYINT"; "SMALLINT"; "YEAR"; "MEDIUMINT"; "INT"; "BIGINT"].

(** A (scan type, type name) pair without an entry in the decision table. *)
Inductive uncovered : ScanType -> string -> Prop :=
| uncovered_unknown : forall name, uncovered scanTypeUnknown name
| uncovered_other : forall t name, uncovered (scanTypeOther t) name
| uncovered_float : forall name,
    ~ In name floatFamilies -> uncovered scanTypeNullFloat name
| uncovered_int : forall name,
    ~ In name intFamilies -> uncovered scanTypeNullInt name.

(** Sequence numbers that go up by one from [prev], in the integers. *)
Fixpoint contiguous_from (prev : Z) (seqs : list Z) : bool :=
  match seqs with
  | [] => true
  | s :: seqs' => (s =? prev + 1)%Z && contiguous_from s seqs'
  end.

(** The first pair (previous, current) the check of the loops rejects, in
    Go's [int] arithmetic. *)
Fixpoint first_gap (prev : Z) (seqs : list Z) : option (Z * Z) :=
  match seqs with
  | [] => None
  | s :: seqs' =>
      if (s =? int_add prev 1)%Z then first_gap s seqs' else Some (prev, s)
  end.

(** The columns of a scanned row of the index query. *)
Definition row_nonUnique (r : bool * string * Z) : bool := fst (fst r).
Definition row_columnName (r : bool * string * Z) : string := snd (fst r).
Definition row_seq (r : bool * string * Z) : Z := snd r.

(** The columns of a scanned row of the foreign-key query. *)
Definition fk_columnName (r : string * Z * string * string) : string :=
  fst (fst (fst r)).
Definition fk_pos (r : string * Z * string * string) : Z :=
  snd (fst (fst r)).
Definition fk_refTableName (r : string * Z * string * string) : string :=
  snd (fst r).
Definition fk_refColumnName (r : string * Z * string * string) : string :=
  snd r.

(** [needle] occurs in [hay]. *)
Fixpoint contains (needle hay : string) : bool :=
  prefix needle hay ||
  match hay with
  | EmptyString => false
  | String _ hay' => contains needle hay'
  end.

(** The message of an error, before its arguments are formatted in. *)
Definition message (e : error) : string :=
  match e with
  | Errorf format _ => format
  | ExternalError msg => msg
  end.

(** The spec's wording of [ExtractColumns]: a [SELECT *] over the quoted
    table name, handed to [ExtractQueryResultColumns]. *)
Definition ExtractColumns_spec (conn : Conn) (tableName : string)
  : outcome (list Col * option error) :=
  ExtractQueryResultColumns conn ("SELECT * FROM " ++ Quote tableName).

(** The outputs of [GenerateQuery()], and of [Generate()], of the
    directives of a chain, concatenated in document order. *)
Definition probeText (chain : list Directive) : string :=
  fold_right append "" (map (fun d => fst (call_GenerateQuery d)) chain).

Definition finalText (chain : list Directive) : string :=
  fold_right append "" (map (fun d => fst (call_Generate d)) chain).

(** No directive of the chain fails to generate its fragments. *)
Definition generates (chain : list Directive) : Prop :=
  Forall (fun d => snd (call_GenerateQuery d) = None /\
                   snd (call_Generate d) = None) chain.

(** The value of the element's [with] attribute, if it has one. *)
Definition with_attribute (elem : Element) : option string :=
  option_map Value (find (fun a => Key a =? "with") (Attr_ elem)).

End Props.

(* ===================================================================== *)
(** ** Concrete connections and documents                                 *)
(* ===================================================================== *)

Module Demo.
Import Sql Mysql Etree Stmt DirectiveReplace.

Definition noScan (A : Type) : scanned A :=
  ScanFailed (ExternalError "sql: Scan error").

(** A row no [Scan] of the source succeeds on. *)
Definition blankRow : Row :=
  {| Scan_NullString := noScan _;
     Scan_bool_string_int := noScan _;
     Scan_string_int_string_string := noScan _ |}.

(** The row [SELECT DATABASE()] answers with. *)
Definition dbRow (name : string) : Row :=
  {| Scan_NullString := Scanned {| String_ := name; Valid := true |};
     Scan_bool_string_int := noScan _;
     Scan_string_int_string_string := noScan _ |}.

(** A row of [INFORMATION_SCHEMA.STATISTICS]. *)
Definition indexRow (nonUnique : bool) (columnName : string) (seq : Z) : Row :=
  {| Scan_NullString := noScan _;
     Scan_bool_string_int := Scanned (nonUnique, columnName, seq);
     Scan_string_int_string_string := noScan _ |}.

(** A row of [INFORMATION_SCHEMA.KEY_COLUMN_USAGE]. *)
Definition fkRow (columnName : string) (pos : Z)
           (refTableName refColumnName : string) : Row :=
  {| Scan_NullString := noScan _;
     Scan_bool_string_int := noScan _;
     Scan_string_int_string_string :=
       Scanned (columnName, pos, refTableName, refColumnName) |}.

Definition cursor (rows : list Row) : Rows :=
  {| ColumnTypes := inr []; rs_columns := []; rows_ := rows |}.

(** The result columns of [SELECT * FROM `flags`]: a NOT NULL and a
    NULLable [TINYINT(1)], an unsigned [INT], a [JSON] document. *)
Definition flagsColumnTypes : list ColumnType :=
  [ {| Name := "enabled"; DatabaseTypeName := "TINYINT"; ScanType_ := scanTypeInt8 |};
    {| Name := "hidden"; DatabaseTypeName := "TINYINT"; ScanType_ := scanTypeNullInt |};
    {| Name := "hits"; DatabaseTypeName := "INT"; ScanType_ := scanTypeUint32 |};
    {| Name := "meta"; DatabaseTypeName := "JSON"; ScanType_ := scanTypeRawBytes |} ].

Definition flagsFields : list mysqlField :=
  [ {| length_ := 1; flags_ := 4097 |};
    {| length_ := 1; flags_ := 0 |};
    {| length_ := 10; flags_ := 33 |};
    {| length_ := 4294967295; flags_ := 144 |} ].

Definition flagsRows : Rows :=
  {| ColumnTypes := inr flagsColumnTypes; rs_columns := flagsFields; rows_ := [] |}.

(** The classified columns of table [flags]. *)
Definition flagsCols : list Col :=
  [ {| ColumnType_ := {| Name := "enabled"; DatabaseTypeName := "TINYINT";
                         ScanType_ := scanTypeInt8 |};
       DataType := "bool" |};
    {| ColumnType_ := {| Name := "hidden"; DatabaseTypeName := "TINYINT";
                         ScanType_ := scanTypeNullInt |};
       DataType := "bool" |};
    {| ColumnType_ := {| Name := "hits"; DatabaseTypeName := "INT";
                         ScanType_ := scanTypeUint32 |};
       DataType := "uint32" |};
    {| ColumnType_ := {| Name := "meta"; DatabaseTypeName := "JSON";
                         ScanType_ := scanTypeRawBytes |};
       DataType := "json" |} ].

(** The result columns of [SELECT * FROM `shapes`]: a [GEOMETRY] column
    follows a nullable [DECIMAL] the driver hands out as nullable float. *)
Definition shapesColumnTypes : list ColumnType :=
  [ {| Name := "id"; DatabaseTypeName := "BIGINT"; ScanType_ := scanTypeInt64 |};
    {| Name := "area"; DatabaseTypeName := "DECIMAL"; ScanType_ := scanTypeNullFloat |} ].

Definition shapesFields : list mysqlField :=
  [ {| length_ := 20; flags_ := 16899 |};
    {| length_ := 12; flags_ := 0 |} ].

Definition shapesRows : Rows :=
  {| ColumnTypes := inr shapesColumnTypes; rs_columns := shapesFields; rows_ := [] |}.

(** The rows of the indexes of table [orders]. *)
Definition indexRowsOf (indexName : string) : list Row :=
  if indexName =? "PRIMARY" then [indexRow false "id" 1]
  else if indexName =? "uk_abc" then
    [indexRow false "a" 1; indexRow false "b" 2; indexRow false "c" 3]
  else if indexName =? "ix_gap" then
    [indexRow true "a" 1; indexRow true "c" 3]
  else [].

(** The rows of the foreign keys of table [orders]. *)
Definition fkRowsOf (fkName : string) : list Row :=
  if fkName =? "fk_customer" then
    [fkRow "customer_id" 1 "customers" "id";
     fkRow "customer_region" 2 "customers" "region"]
  else if fkName =? "fk_gap" then
    [fkRow "x" 2 "t" "x"]
  else [].

(** A connection to database [shop]. *)
Definition shop : Conn :=
  {| QueryRowContext := fun query args =>
       if query =? "SELECT DATABASE()" then dbRow "shop" else blankRow;
     QueryContext := fun query args =>
       if query =? "SELECT * FROM `flags`" then inr flagsRows
       else if query =? "SELECT * FROM `shapes`" then inr shapesRows
       else if query =? indexQuery then
         match args with
         | [_; _; indexName] => inr (cursor (indexRowsOf indexName))
         | _ => inl (ExternalError "sql: wrong number of arguments")
         end
       else if query =? fkQuery then
         match args with
         | [_; _; fkName] => inr (cursor (fkRowsOf fkName))
         | _ => inl (ExternalError "sql: wrong number of arguments")
         end
       else inl (ExternalError "Error 1064: You have an error in your SQL syntax") |}.

(** [<replace with="?">1+1</replace>] *)
Definition replaceElem : Element :=
  {| Tag := "replace"; Attr_ := [ {| Key := "with"; Value := "?" |} ]; Text := "1+1" |}.

(** [<replace>1+1</replace>] and [<replace with="">1+1</replace>] *)
Definition replaceElemNoWith : Element :=
  {| Tag := "replace"; Attr_ := [ {| Key := "id"; Value := "r1" |} ]; Text := "1+1" |}.

Definition replaceElemEmptyWith : Element :=
  {| Tag := "replace"; Attr_ := [ {| Key := "with"; Value := "" |} ]; Text := "1+1" |}.

End Demo.

(* ===================================================================== *)
(** ** dbcontext/drvs/mysql/mysql.go: the extractors of names             *)
(* ===================================================================== *)

Module MysqlNames.
Import Sql Mysql.

(** One pass through the body of a loop that can also [break]. *)
Inductive ctl (S R : Type) : Type :=
| Step (f : flow S R)
| Break (s : S).
Arguments Step {S R} f.
Arguments Break {S R} s.

(** [for_range] for such a body: [break] leaves the loop with the state it
    carries. *)
Fixpoint for_range_break (X S R : Type) (body : nat -> X -> S -> ctl S R)
         (i0 : nat) (xs : list X) (s : S) : flow S R :=
  match xs with
  | [] => Next s
  | x :: xs' =>
      match body i0 x s with
      | Step (Next s') => for_range_break body (Datatypes.S i0) xs' s'
      | Step (Ret r) => Ret r
      | Step (Abort v) => Abort v
      | Break s' => Next s'
      end
  end.

Section StringScan.

(** What [rows.Scan] with a single [*string] destination delivers on a
    row. *)
Variable Scan_string : Row -> scanned string.

(** lines 221-228 *)
Definition tableNamesQuery : string := "
	SELECT 
		TABLE_NAME
	FROM
		INFORMATION_SCHEMA.TABLES
	WHERE
		TABLE_SCHEMA=? AND TABLE_TYPE='BASE TABLE'
	".

(** lines 254-261 *)
Definition autoIncQuery : string := "
	SELECT
		COLUMN_NAME
	FROM
		INFORMATION_SCHEMA.COLUMNS
	WHERE
		TABLE_SCHEMA=? AND TABLE_NAME=? AND EXTRA LIKE ?
	".

(** lines 283-289 *)
Definition indexNamesQuery : string := "
	SELECT 
		DISTINCT INDEX_NAME 
	FROM 
		INFORMATION_SCHEMA.STATISTICS 
	WHERE 
		TABLE_SCHEMA=? AND TABLE_NAME=?".

(** lines 360-366 *)
Definition fkNamesQuery : string := "
	SELECT
		CONSTRAINT_NAME
	FROM
		INFORMATION_SCHEMA.TABLE_CONSTRAINTS
	WHERE
		TABLE_SCHEMA=? AND TABLE_NAME = ? AND CONSTRAINT_TYPE = 'FOREIGN KEY'".

(** lines 234-240, 295-301 and 372-378: the body of the three loops that
    collect one name per row. *)
Definition nameBody (_ : nat) (row : Row) (names : list string)
  : flow (list string) (list string * option error) :=
  match Scan_string row with
  | ScanFailed err => Ret (nil, Some err)
  | Scanned name => Next (names ++ [name])%list
  end.

(** lines 215-242 *)
Definition ExtractTableNames (conn : Conn)
  : outcome (list string * option error) :=
  match extractDBName conn with
  | (_, Some err) => Return (nil, Some err)
  | (dbName, None) =>
      match QueryContext conn tableNamesQuery [dbName] with
      | inl err => Return (nil, Some err)
      | inr rows =>
          match for_range nameBody 0 (rows_ rows) nil with
          | Next tableNames => Return (tableNames, None)
          | Ret r => Return r
          | Abort v => Panic v
          end
      end
  end.

(** lines 267-272: the body of the loop of [ExtractAutoIncColumn], which
    ends with [break]. *)
Definition autoIncBody (_ : nat) (row : Row) (columnName : string)
  : ctl string (string * option error) :=
  match Scan_string row with
  | ScanFailed err => Step (Ret ("", Some err))
  | Scanned name => Break name
  end.

(** lines 248-275 *)
Definition ExtractAutoIncColumn (conn : Conn) (tableName : string)
  : outcome (string * option error) :=
  match extractDBName conn with
  | (_, Some err) => Return ("", Some err)
  | (dbName, None) =>
      match QueryContext conn autoIncQuery
                         [dbName; tableName; "%auto_increment%"] with
      | inl err => Return ("", Some err)
      | inr rows =>
          match for_range_break autoIncBody 0 (rows_ rows) "" with
          | Next columnName => Return (columnName, None)
          | Ret r => Return r
          | Abort v => Panic v
          end
      end
  end.

(** lines 277-304 *)
Definition ExtractIndexNames (conn : Conn) (tableName : string)
  : outcome (list string * option error) :=
  match extractDBName conn with
  | (_, Some err) => Return (nil, Some err)
  | (dbName, None) =>
      match QueryContext conn indexNamesQuery [dbName; tableName] with
      | inl err => Return (nil, Some err)
      | inr rows =>
          match for_range nameBody 0 (rows_ rows) nil with
          | Next indexNames => Return (indexNames, None)
          | Ret r => Return r
          | Abort v => Panic v
          end
      end
  end.

(** lines 354-380 *)
Definition ExtractFKNames (conn : Conn) (tableName : string)
  : outcome (list string * option error) :=
  match extractDBName conn with
  | (_, Some err) => Return (nil, Some err)
  | (dbName, None) =>
      match QueryContext conn fkNamesQuery [dbName; tableName] with
      | inl err => Return (nil, Some err)
      | inr rows =>
          match for_range nameBody 0 (rows_ rows) nil with
          | Next fkNames => Return (fkNames, None)
          | Ret r => Return r
          | Abort v => Panic v
          end
      end
  end.

End StringScan.

End MysqlNames.

(* ===================================================================== *)
(** ** stmt/directive.go and stmt/directive/replace.go: the registry      *)
(* ===================================================================== *)

Module Registry.
Import Stmt DirectiveReplace.

(** [func() StmtDirective] *)
Definition Factory : Type := unit -> Directive.

(** [map[string]func() StmtDirective]: the factory stored under a tag, if
    there is one. *)
Definition Factories : Type := string -> option Factory.

(** directive.go, lines 34-37: the map starts empty. *)
Definition directiveFactories : Factories := fun _ => None.

(** [m[tag] = factory] *)
Definition store (m : Factories) (tag : string) (factory : Factory)
  : Factories :=
  fun t => if t =? tag then Some factory else m t.

(** directive.go, lines 56-61; the map is the package variable the
    function assigns into. *)
Definition RegistDirective (factory : Factory) (tags : list string)
           (m : Factories) : Factories :=
  fold_left (fun m' tag => store m' tag factory) tags m.

(** [Initialize] called on a value of the interface type: the method of the
    concrete type runs on the value's pointer, so the interface value holds
    the directive as [Initialize] leaves it. *)
Definition call_Initialize (DBContext StmtInfo : Type)
           (ctx : DBContext) (stmt : StmtInfo) (d : Directive)
           (tok : Etree.Token) : outcome (Directive * option error) :=
  match Initialize (StmtDirective := dyn_methods d) ctx stmt (dyn_value d) tok with
  | Return (v, err) =>
      Return ({| dyn_type := dyn_type d; dyn_methods := dyn_methods d;
                 dyn_value := v |}, err)
  | Panic p => Panic p
  end.

(** replace.go, lines 40-42: the factory of the [<replace>] directive. *)
Definition replaceFactory : Factory :=
  fun _ => Replace {| origin := ""; with_ := "" |}.

(** replace.go, lines 39-43 *)
Definition init (m : Factories) : Factories :=
  RegistDirective replaceFactory ["replace"] m.

End Registry.

(* ===================================================================== *)
(** ** render: the renderer's options and file names                      *)
(* ===================================================================== *)

Module Render.

(** [strings.LastIndexByte(s, c)]: the index of the last byte of [s] equal
    to [c], or -1. *)
Fixpoint LastIndexByte (s : string) (c : ascii) : Z :=
  match s with
  | EmptyString => -1
  | String a s' =>
      let r := LastIndexByte s' c in
      if (0 <=? r)%Z then r + 1
      else if Ascii.eqb a c then 0 else -1
  end.

(** lines 257-263 *)
Definition stripSuffix (s : string) : string :=
  let i := LastIndexByte s "."%char in
  if (i <? 0)%Z then s else substring 0 (Z.to_nat i) s.

Section Renderer.

(** The types of the collaborators, declared outside the file. *)
Variables Loader FileSystem DBInfo ScanTypeMap Template : Type.

(** [path.Base] *)
Variable path_Base : string -> string.

(** lines 20-34.  A pointer or interface field is [None] when nil; a
    [map[string]struct{}] is the list of its keys. *)
Record Renderer : Type := {
  loader : option Loader;
  tmplFS : option FileSystem;
  stmtDir : string;
  outputDir : string;
  outputPkg : string;
  whitelist : list string;
  blacklist : list string;
  db : option DBInfo;
  scanTypeMap : option ScanTypeMap;
  templates : string -> option Template
}.

(** [&Renderer{}] *)
Definition zeroRenderer : Renderer :=
  {| loader := None; tmplFS := None; stmtDir := ""; outputDir := "";
     outputPkg := ""; whitelist := nil; blacklist := nil;
     db := None; scanTypeMap := None; templates := fun _ => None |}.

(** [Option], a function from a pointer to the renderer to an error: the
    renderer it leaves and the error it returns. *)
Definition Option : Type := Renderer -> Renderer * option error.

(** lines 40-44: the body of the loop over the options. *)
Definition optionBody (_ : nat) (op : Option) (r : Renderer)
  : flow Renderer (option Renderer * option error) :=
  match op r with
  | (_, Some err) => Ret (None, Some err)
  | (r', None) => Next r'
  end.

(** lines 37-64 *)
Definition NewRenderer (opts : list Option)
  : outcome (option Renderer * option error) :=
  match for_range optionBody 0 opts zeroRenderer with
  | Abort v => Panic v
  | Ret res => Return res
  | Next r =>
      match loader r with
      | None => Return (None, Some (Errorf "Missing Loader" []))
      | Some _ =>
          match tmplFS r with
          | None => Return (None, Some (Errorf "Missing FS" []))
          | Some _ =>
              if outputDir r =? "" then
                Return (None, Some (Errorf "Missing output directory" []))
              else
                let r :=
                  if outputPkg r =? "" then
                    {| loader := loader r; tmplFS := tmplFS r;
                       stmtDir := stmtDir r; outputDir := outputDir r;
                       outputPkg := path_Base (outputDir r);
                       whitelist := whitelist r; blacklist := blacklist r;
                       db := db r; scanTypeMap := scanTypeMap r;
                       templates := templates r |}
                  else r in
                if negb (List.length (whitelist r) =? 0)%nat &&
                   negb (List.length (blacklist r) =? 0)%nat then
                  Return (None,
                          Some (Errorf "Only one of whitelist or blacklist can be specified" []))
                else Return (Some r, None)
          end
      end
  end.

End Renderer.

End Render.

(* ===================================================================== *)
(** ** Notions the further properties are stated with                     *)
(* ===================================================================== *)

Module MoreProps.
Import Render.

(** The byte [c] occurs in [s]. *)
Fixpoint has_byte (c : ascii) (s : string) : bool :=
  match s with
  | EmptyString => false
  | String a s' => Ascii.eqb a c || has_byte c s'
  end.

Section Options.
Variables Loader FileSystem DBInfo ScanTypeMap Template : Type.

(** The renderer a list of options leaves when none of them fails. *)
Fixpoint applied
         (opts : list (Option Loader FileSystem DBInfo ScanTypeMap Template))
         (r : Renderer Loader FileSystem DBInfo ScanTypeMap Template)
  : option (Renderer Loader FileSystem DBInfo ScanTypeMap Template) :=
  match opts with
  | [] => Some r
  | op :: opts' =>
      match op r with
      | (r', None) => applied opts' r'
      | (_, Some _) => None
      end
  end.

(** [r] with its package name set to [pkg]. *)
Definition withPkg (pkg : string)
           (r : Renderer Loader FileSystem DBInfo ScanTypeMap Template)
  : Renderer Loader FileSystem DBInfo ScanTypeMap Template :=
  {| loader := loader r; tmplFS := tmplFS r;
     stmtDir := stmtDir r; outputDir := outputDir r;
     outputPkg := pkg;
     whitelist := whitelist r; blacklist := blacklist r;
     db := db r; scanTypeMap := scanTypeMap r;
     templates := templates r |}.

End Options.

End MoreProps.

(* ===================================================================== *)
(** ** More concrete connections                                          *)
(* ===================================================================== *)

Module DemoNames.
Import Sql Mysql MysqlNames Render.

(** [Scan] into a [*string]: a NULL cannot be stored. *)
Definition scanString (row : Row) : scanned string :=
  match Scan_NullString row with
  | Scanned ns =>
      if Valid ns then Scanned (String_ ns)
      else ScanFailed (ExternalError "sql: Scan error: converting NULL to string is unsupported")
  | ScanFailed e => ScanFailed e
  end.

Definition nameRow (name : string) : Row := Demo.dbRow name.

Definition nullRow : Row :=
  {| Scan_NullString := Scanned {| String_ := ""; Valid := false |};
     Scan_bool_string_int := Demo.noScan _;
     Scan_string_int_string_string := Demo.noScan _ |}.

(** A connection to database [shop] that answers the queries for names. *)
Definition names : Conn :=
  {| QueryRowContext := fun query args =>
       if query =? "SELECT DATABASE()" then Demo.dbRow "shop" else Demo.blankRow;
     QueryContext := fun query args =>
       if query =? tableNamesQuery then
         inr (Demo.cursor [nameRow "customers"; nameRow "orders"])
       else if query =? autoIncQuery then
         inr (Demo.cursor [nameRow "id"; nameRow "serial"])
       else if query =? indexNamesQuery then
         inr (Demo.cursor [nameRow "PRIMARY"; nameRow "uk_abc"; nullRow; nameRow "ix"])
       else if query =? fkNamesQuery then
         inr (Demo.cursor [nameRow "fk_customer"])
       else if query =? indexQuery then
         inr (Demo.cursor [Demo.indexRow false "a" 1; Demo.blankRow;
                           Demo.indexRow false "c" 7])
       else if query =? fkQuery then
         inr (Demo.cursor [Demo.fkRow "customer_id" 1 "customers" "id";
                           Demo.fkRow "customer_region" 2 "customers" "region"])
       else inl (ExternalError "Error 1064: You have an error in your SQL syntax") |}.

(** A connection with no database selected. *)
Definition detached : Conn :=
  {| QueryRowContext := fun query args => nullRow;
     QueryContext := QueryContext names |}.

(** Options over unit collaborators. *)
Definition R : Type := Renderer unit unit unit unit unit.

Definition setLoader : Option unit unit unit unit unit :=
  fun r => ({| loader := Some tt; tmplFS := tmplFS r; stmtDir := stmtDir r;
               outputDir := outputDir r; outputPkg := outputPkg r;
               whitelist := whitelist r; blacklist := blacklist r;
               db := db r; scanTypeMap := scanTypeMap r;
               templates := templates r |}, None).

Definition setFS : Option unit unit unit unit unit :=
  fun r => ({| loader := loader r; tmplFS := Some tt; stmtDir := stmtDir r;
               outputDir := outputDir r; outputPkg := outputPkg r;
               whitelist := whitelist r; blacklist := blacklist r;
               db := db r; scanTypeMap := scanTypeMap r;
               templates := templates r |}, None).

Definition setOutputDir (dir : string) : Option unit unit unit unit unit :=
  fun r => ({| loader := loader r; tmplFS := tmplFS r; stmtDir := stmtDir r;
               outputDir := dir; outputPkg := outputPkg r;
               whitelist := whitelist r; blacklist := blacklist r;
               db := db r; scanTypeMap := scanTypeMap r;
               templates := templates r |}, None).

Definition setWhitelist (names : list string) : Option unit unit unit unit unit :=
  fun r => ({| loader := loader r; tmplFS := tmplFS r; stmtDir := stmtDir r;
               outputDir := outputDir r; outputPkg := outputPkg r;
               whitelist := names; blacklist := blacklist r;
               db := db r; scanTypeMap := scanTypeMap r;
               templates := templates r |}, None).

Definition setBlacklist (names : list string) : Option unit unit unit unit unit :=
  fun r => ({| loader := loader r; tmplFS := tmplFS r; stmtDir := stmtDir r;
               outputDir := outputDir r; outputPkg := outputPkg r;
               whitelist := whitelist r; blacklist := names;
               db := db r; scanTypeMap := scanTypeMap r;
               templates := templates r |}, None).

Definition failing : Option unit unit unit unit unit :=
  fun r => (r, Some (ExternalError "bad option")).

(** A stand-in for [path.Base] on paths without a trailing slash: what
    follows the last slash. *)
Fixpoint baseName (s : string) : string :=
  match s with
  | EmptyString => EmptyString
  | String a s' =>
      if MoreProps.has_byte "/"%char s' then baseName s' else
        if Ascii.eqb a "/"%char then s' else s
  end.

End DemoNames.

(* ===================================================================== *)
(** * Properties                                                          *)
(* ===================================================================== *)

Import Sql Mysql Etree Stmt DirectiveReplace Props.

(** ** Loops *)

Section Loops.
Variables X S R : Type.
Variable body : nat -> X -> S -> flow S R.

(** A loop whose body never executes [return] does not return early. *)
Lemma for_range_no_ret :
  (forall i x s r, body i x s <> Ret r) ->
  forall xs i s r, for_range body i xs s <> Ret r.
Proof.
  intros Hbody xs; induction xs as [|x xs IH]; intros i s r; simpl.
  - discriminate.
  - destruct (body i x s) eqn:E.
    + apply IH.
    + exfalso; exact (Hbody _ _ _ _ E).
    + discriminate.
Qed.

(** The loop over [pre ++ post] runs [pre], then [post] from the state and
    the index [pre] ends with. *)
Lemma for_range_app :
  forall pre post i s,
    for_range body i (pre ++ post) s =
    match for_range body i pre s with
    | Next s' => for_range body (i + List.length pre) post s'
    | Ret r => Ret r
    | Abort v => Abort v
    end.
Proof.
  induction pre as [|x pre IH]; intros post i s; simpl.
  - now rewrite Nat.add_0_r.
  - destruct (body i x s); auto.
    rewrite IH, Nat.add_succ_r. reflexivity.
Qed.

End Loops.

(** ** Column classification *)

Lemma columnBody_no_ret :
  forall rows i ct acc r, columnBody rows i ct acc <> Ret r.
Proof.
  intros rows i ct acc r. unfold columnBody.
  destruct (nth_error (rs_columns rows) i); [|discriminate].
  destruct (columnDataType _ _ _ _); discriminate.
Qed.

(** One pass of the loop that goes on has found the field of the column,
    classified it and appended the classified column. *)
Lemma columnBody_next :
  forall rows i ct acc acc',
    columnBody rows i ct acc = Next acc' ->
    exists field dataType,
      nth_error (rs_columns rows) i = Some field /\
      columnDataType (ScanType_ ct) (DatabaseTypeName ct)
                     (length_ field) (isUnsigned field) = Return dataType /\
      acc' = (acc ++ [ {| ColumnType_ := ct; DataType := dataType |} ])%list.
Proof.
  intros rows i ct acc acc'. unfold columnBody, isUnsigned.
  destruct (nth_error (rs_columns rows) i) as [field|]; [|discriminate].
  destruct (columnDataType _ _ _ _) as [dt|v] eqn:E; [|discriminate].
  intros H; inversion H; subst. exists field, dt. auto.
Qed.

(** The columns a completed loop has appended: one per column type, in
    order, each with the data type the switch assigns to it. *)
Lemma columns_loop_next :
  forall rows cts i acc cols,
    for_range (columnBody rows) i cts acc = Next cols ->
    exists tail,
      cols = (acc ++ tail)%list /\
      forall k ct, nth_error cts k = Some ct ->
        exists field dataType,
          nth_error (rs_columns rows) (i + k) = Some field /\
          columnDataType (ScanType_ ct) (DatabaseTypeName ct)
                         (length_ field) (isUnsigned field) = Return dataType /\
          nth_error tail k = Some {| ColumnType_ := ct; DataType := dataType |}.
Proof.
  intros rows cts; induction cts as [|ct0 cts IH]; intros i acc cols; simpl.
  - intros H; inversion H; subst. exists []. split.
    + now rewrite app_nil_r.
    + intros [|k] ct Hk; discriminate.
  - destruct (columnBody rows i ct0 acc) as [acc'| |] eqn:E; try discriminate.
    intros Hloop.
    destruct (columnBody_next _ _ _ _ E) as (f0 & dt0 & Hf0 & Hdt0 & ->).
    destruct (IH _ _ _ Hloop) as (tail & -> & Htail).
    exists ({| ColumnType_ := ct0; DataType := dt0 |} :: tail). split.
    + now rewrite <- app_assoc.
    + intros [|k] ct Hk; simpl in Hk.
      * inversion Hk; subst. exists f0, dt0. rewrite Nat.add_0_r. auto.
      * destruct (Htail _ _ Hk) as (f & dt & Hf & Hdt & Hnth).
        exists f, dt. rewrite Nat.add_succ_r. auto.
Qed.

(** What [ExtractQueryResultColumns] has done when it returns without an
    error: the query and [ColumnTypes()] succeeded and the loop ran to its
    end. *)
Lemma ExtractQueryResultColumns_return :
  forall conn query cols err,
    ExtractQueryResultColumns conn query = Return (cols, err) ->
    (cols = [] /\ err <> None) \/
    (err = None /\
     exists rows cts,
       QueryContext conn query [] = inr rows /\
       ColumnTypes rows = inr cts /\
       for_range (columnBody rows) 0 cts [] = Next cols).
Proof.
  intros conn query cols err. unfold ExtractQueryResultColumns.
  destruct (QueryContext conn query []) as [e|rows] eqn:Hq.
  - intros H; inversion H; subst. left; split; [reflexivity|discriminate].
  - destruct (ColumnTypes rows) as [e|cts] eqn:Hc.
    + intros H; inversion H; subst. left; split; [reflexivity|discriminate].
    + destruct (for_range (columnBody rows) 0 cts []) as [cs|r|v] eqn:Hl.
      * intros H; inversion H; subst. right. split; [reflexivity|].
        exists rows, cts. auto.
      * exfalso. revert Hl. apply for_range_no_ret. apply columnBody_no_ret.
      * discriminate.
Qed.

(** The switch on a [TINYINT(1)], on both scan types. *)
Lemma columnDataType_tinyint1 :
  forall nullable ct field,
    tinyint1 nullable ct field ->
    columnDataType (ScanType_ ct) (DatabaseTypeName ct)
                   (length_ field) (isUnsigned field) = Return "bool".
Proof.
  intros nullable ct field (Hname & Hsign & Hlen & Hscan).
  rewrite Hname, Hsign, Hlen, Hscan. destruct nullable; reflexivity.
Qed.

(** C1. A result column declared as a signed TINYINT of display length 1 is
    given the data type "bool" by the switch, on the NOT NULL path (scan
    type int8) and on the NULLable path (scan type NullInt64, type name
    TINYINT, unsigned flag clear, length 1) alike; and whenever
    [ExtractQueryResultColumns] returns for a query with such a column at
    position [k], the column it returns at position [k] is that column with
    data type "bool". *)
Theorem tinyint1_classified_as_bool :
  forall nullable ct field,
    tinyint1 nullable ct field ->
    columnDataType (ScanType_ ct) (DatabaseTypeName ct)
                   (length_ field) (isUnsigned field) = Return "bool" /\
    forall conn query rows cts k cols err,
      QueryContext conn query [] = inr rows ->
      ColumnTypes rows = inr cts ->
      nth_error cts k = Some ct ->
      nth_error (rs_columns rows) k = Some field ->
      ExtractQueryResultColumns conn query = Return (cols, err) ->
      err = None /\
      nth_error cols k = Some {| ColumnType_ := ct; DataType := "bool" |}.
Proof.
  intros nullable ct field Htiny.
  pose proof (columnDataType_tinyint1 Htiny) as Hbool.
  split; [exact Hbool|].
  intros conn query rows cts k cols err Hq Hc Hct Hfield Hret.
  destruct (ExtractQueryResultColumns_return _ _ Hret)
    as [[_ Herr] | (-> & rows' & cts' & Hq' & Hc' & Hloop)].
  - exfalso. unfold ExtractQueryResultColumns in Hret.
    rewrite Hq, Hc in Hret.
    destruct (for_range (columnBody rows) 0 cts []) eqn:Hl;
      inversion Hret; subst.
    + now apply Herr.
    + revert Hl. apply for_range_no_ret, columnBody_no_ret.
  - rewrite Hq in Hq'; inversion Hq'; subst rows'.
    rewrite Hc in Hc'; inversion Hc'; subst cts'.
    destruct (columns_loop_next _ _ _ _ Hloop) as (tail & -> & Htail).
    destruct (Htail _ _ Hct) as (f & dt & Hf & Hdt & Hnth).
    simpl in Hf. rewrite Hfield in Hf; inversion Hf; subst f.
    rewrite Hbool in Hdt; inversion Hdt; subst dt.
    split; [reflexivity|exact Hnth].
Qed.

(** The two TINYINT(1) columns of table [flags], NOT NULL and NULLable,
    both come back as "bool". *)
Lemma tinyint1_classified_as_bool_witness :
  (None = None :> option error /\
   nth_error Demo.flagsCols 0 =
     Some {| ColumnType_ := {| Name := "enabled"; DatabaseTypeName := "TINYINT";
                               ScanType_ := scanTypeInt8 |};
             DataType := "bool" |}) /\
  (None = None :> option error /\
   nth_error Demo.flagsCols 1 =
     Some {| ColumnType_ := {| Name := "hidden"; DatabaseTypeName := "TINYINT";
                               ScanType_ := scanTypeNullInt |};
             DataType := "bool" |}).
Proof.
  split.
  - refine (proj2 (@tinyint1_classified_as_bool false _
                     {| length_ := 1; flags_ := 4097 |} _)
                  Demo.shop "SELECT * FROM `flags`" Demo.flagsRows
                  Demo.flagsColumnTypes 0%nat Demo.flagsCols None _ _ _ _ _);
      try reflexivity.
    repeat split; reflexivity.
  - refine (proj2 (@tinyint1_classified_as_bool true _
                     {| length_ := 1; flags_ := 0 |} _)
                  Demo.shop "SELECT * FROM `flags`" Demo.flagsRows
                  Demo.flagsColumnTypes 1%nat Demo.flagsCols None _ _ _ _ _);
      try reflexivity.
    repeat split; reflexivity.
Defined.

(** ** The data types the classifier can assign *)

Ltac case_switch H :=
  repeat match type of H with
         | context [if ?b then _ else _] => destruct b
         end.

Ltac in_list := repeat (first [left; reflexivity | right]).

Lemma columnDataType_in_DataTypes :
  forall scanType databaseTypeName length isUnsigned dataType,
    columnDataType scanType databaseTypeName length isUnsigned = Return dataType ->
    In dataType DataTypes.
Proof.
  intros st name len u dt H.
  destruct st; simpl in H; case_switch H;
    first [discriminate H | inversion H; subst dt; in_list].
Qed.

(** The loop keeps every appended column inside a set that contains the
    switch's results. *)
Lemma columns_loop_Forall :
  forall (P : Col -> Prop) rows,
    (forall ct field dataType,
        columnDataType (ScanType_ ct) (DatabaseTypeName ct)
                       (length_ field) (isUnsigned field) = Return dataType ->
        P {| ColumnType_ := ct; DataType := dataType |}) ->
    forall cts i acc cols,
      for_range (columnBody rows) i cts acc = Next cols ->
      Forall P acc -> Forall P cols.
Proof.
  intros P rows HP cts; induction cts as [|ct cts IH]; intros i acc cols; simpl.
  - intros H; inversion H; subst; auto.
  - destruct (columnBody rows i ct acc) as [acc'| |] eqn:E; try discriminate.
    intros Hloop Hacc.
    destruct (columnBody_next _ _ _ _ E) as (f & dt & _ & Hdt & ->).
    apply (IH _ _ _ Hloop).
    apply Forall_app; split; [exact Hacc|].
    constructor; [|constructor]. exact (HP _ _ _ Hdt).
Qed.

(** C2. Every data type the switch of [ExtractQueryResultColumns] assigns
    on any of its branches is a member of [DataTypes()], and so is the data
    type of every column [ExtractQueryResultColumns] returns. *)
Theorem DataTypes_superset_of_classifier :
  (forall scanType databaseTypeName length isUnsigned dataType,
      columnDataType scanType databaseTypeName length isUnsigned = Return dataType ->
      In dataType DataTypes) /\
  (forall conn query cols err,
      ExtractQueryResultColumns conn query = Return (cols, err) ->
      Forall (fun c => In (DataType c) DataTypes) cols).
Proof.
  split; [exact columnDataType_in_DataTypes|].
  intros conn query cols err Hret.
  destruct (ExtractQueryResultColumns_return _ _ Hret)
    as [[-> _] | (_ & rows & cts & _ & _ & Hloop)].
  - constructor.
  - eapply columns_loop_Forall; [|exact Hloop|constructor].
    intros ct field dt Hdt. simpl. exact (columnDataType_in_DataTypes _ _ _ _ Hdt).
Qed.

(** On table [flags] the classifier hands out "bool", "uint32" and "json",
    all of them listed. *)
Lemma DataTypes_superset_of_classifier_witness :
  In "uint32" DataTypes /\
  Forall (fun c => In (DataType c) DataTypes) Demo.flagsCols.
Proof.
  split.
  - apply (proj1 DataTypes_superset_of_classifier
                 scanTypeNullInt "MEDIUMINT" 8 true "uint32").
    reflexivity.
  - apply (proj2 DataTypes_superset_of_classifier
                 Demo.shop "SELECT * FROM `flags`" Demo.flagsCols None).
    reflexivity.
Defined.

(** ** Uncovered scan types *)

Lemma columnDataType_uncovered :
  forall scanType databaseTypeName length isUnsigned,
    uncovered scanType databaseTypeName ->
    columnDataType scanType databaseTypeName length isUnsigned =
    Panic (Errorf "Unknown column type: scantype=%#v databaseTypeName=%+q"
                  [ArgType scanType; ArgString databaseTypeName]).
Proof.
  intros st name len u Hun.
  destruct Hun as [name|t name|name Hn|name Hn]; try reflexivity; simpl.
  - destruct (String.eqb_spec name "FLOAT") as [->|_].
    { exfalso; apply Hn; in_list. }
    destruct (String.eqb_spec name "DOUBLE") as [->|_].
    { exfalso; apply Hn; in_list. }
    reflexivity.
  - destruct (String.eqb_spec name "TINYINT") as [->|_].
    { exfalso; apply Hn; in_list. }
    destruct (String.eqb_spec name "SMALLINT") as [->|_].
    { exfalso; apply Hn; in_list. }
    destruct (String.eqb_spec name "YEAR") as [->|_].
    { exfalso; apply Hn; in_list. }
    destruct (String.eqb_spec name "MEDIUMINT") as [->|_].
    { exfalso; apply Hn; in_list. }
    destruct (String.eqb_spec name "INT") as [->|_].
    { exfalso; apply Hn; in_list. }
    destruct (String.eqb_spec name "BIGINT") as [->|_].
    { exfalso; apply Hn; in_list. }
    reflexivity.
Qed.

(** The loop over the column types panics when one of them is uncovered. *)
Lemma columns_loop_uncovered :
  forall rows cts k ct,
    nth_error cts k = Some ct ->
    uncovered (ScanType_ ct) (DatabaseTypeName ct) ->
    forall i acc, exists v, for_range (columnBody rows) i cts acc = Abort v.
Proof.
  intros rows cts; induction cts as [|ct0 cts IH]; intros k ct Hk Hun i acc.
  - destruct k; discriminate.
  - simpl. destruct k as [|k]; simpl in Hk.
    + inversion Hk; subst ct0. unfold columnBody.
      destruct (nth_error (rs_columns rows) i) as [f|]; [|eauto].
      rewrite (columnDataType_uncovered _ _ Hun). eauto.
    + destruct (columnBody rows i ct0 acc) as [acc'|r|v] eqn:E.
      * exact (IH _ _ Hk Hun _ _).
      * exfalso. exact (columnBody_no_ret _ _ _ _ E).
      * eauto.
Qed.

(** C4. On a (scan type, type name) pair the decision table does not cover
    (a scan type outside the table; nullable float with a name other than
    FLOAT and DOUBLE; nullable integer with a name outside the integer
    families) the switch panics with the "Unknown column type" error and
    assigns no data type; and [ExtractQueryResultColumns] panics, returning
    nothing, on every query whose result has such a column. *)
Theorem uncovered_column_panics :
  forall scanType databaseTypeName,
    uncovered scanType databaseTypeName ->
    (forall length isUnsigned,
        columnDataType scanType databaseTypeName length isUnsigned =
        Panic (Errorf "Unknown column type: scantype=%#v databaseTypeName=%+q"
                      [ArgType scanType; ArgString databaseTypeName])) /\
    (forall conn query rows cts k ct,
        QueryContext conn query [] = inr rows ->
        ColumnTypes rows = inr cts ->
        nth_error cts k = Some ct ->
        ScanType_ ct = scanType ->
        DatabaseTypeName ct = databaseTypeName ->
        exists v, ExtractQueryResultColumns conn query = Panic v).
Proof.
  intros st name Hun. split.
  - intros len u. exact (columnDataType_uncovered len u Hun).
  - intros conn query rows cts k ct Hq Hc Hk Hst Hname.
    subst st name.
    destruct (columns_loop_uncovered rows _ _ Hk Hun 0%nat []) as [v Hv].
    exists v. unfold ExtractQueryResultColumns. rewrite Hq, Hc, Hv. reflexivity.
Qed.

(** The nullable DECIMAL of table [shapes] stops the extraction. *)
Lemma uncovered_column_panics_witness :
  columnDataType scanTypeNullFloat "DECIMAL" 12 false =
    Panic (Errorf "Unknown column type: scantype=%#v databaseTypeName=%+q"
                  [ArgType scanTypeNullFloat; ArgString "DECIMAL"]) /\
  exists v, ExtractQueryResultColumns Demo.shop "SELECT * FROM `shapes`" = Panic v.
Proof.
  assert (Hun : uncovered scanTypeNullFloat "DECIMAL").
  { constructor. simpl. intros [H|[H|[]]]; discriminate H. }
  split.
  - exact (proj1 (uncovered_column_panics Hun) 12 false).
  - apply (proj2 (uncovered_column_panics Hun)
                 Demo.shop "SELECT * FROM `shapes`" Demo.shapesRows
                 Demo.shapesColumnTypes 1%nat
                 {| Name := "area"; DatabaseTypeName := "DECIMAL";
                    ScanType_ := scanTypeNullFloat |});
      reflexivity.
Defined.

(** ** Go's int and the contiguity check *)

Lemma int_wrap_small :
  forall z, - 2 ^ 63 <= z < 2 ^ 63 -> int_wrap z = z.
Proof.
  intros z Hz. unfold int_wrap. rewrite Z.mod_small; lia.
Qed.

Lemma int_add_small :
  forall a b, - 2 ^ 63 <= a + b < 2 ^ 63 -> int_add a b = a + b.
Proof.
  intros a b H. unfold int_add. now apply int_wrap_small.
Qed.

(** Below 2^63 rows, a sequence that is not contiguous in the integers has
    a pair the loops' check rejects. *)
Lemma first_gap_of_not_contiguous :
  forall seqs prev,
    0 <= prev ->
    prev + Z.of_nat (List.length seqs) < 2 ^ 63 ->
    contiguous_from prev seqs = false ->
    exists p s, first_gap prev seqs = Some (p, s) /\ s <> p + 1.
Proof.
  induction seqs as [|s seqs IH]; intros prev Hprev Hlen Hc;
    cbn [contiguous_from] in Hc; cbn [first_gap]; cbn [List.length] in Hlen.
  - discriminate.
  - rewrite Nat2Z.inj_succ in Hlen.
    rewrite int_add_small by lia.
    destruct (Z.eqb_spec s (prev + 1)) as [->|Hne].
    + simpl in Hc. apply IH; [lia|lia|exact Hc].
    + exists prev, s. auto.
Qed.

(** A contiguous sequence numbers its elements 1, 2, 3, ... after [prev],
    as long as these numbers fit Go's int. *)
Lemma first_gap_none_nth :
  forall seqs prev,
    0 <= prev ->
    first_gap prev seqs = None ->
    forall k s, nth_error seqs k = Some s ->
      prev + Z.of_nat k + 1 < 2 ^ 63 ->
      s = prev + Z.of_nat k + 1.
Proof.
  induction seqs as [|s0 seqs IH]; intros prev Hprev Hgap k s Hk Hfit.
  - destruct k; discriminate.
  - simpl in Hgap.
    destruct (Z.eqb_spec s0 (int_add prev 1)) as [Hs0|]; [|discriminate].
    rewrite int_add_small in Hs0 by lia.
    destruct k as [|k]; simpl in Hk.
    + inversion Hk; subst. simpl. lia.
    + rewrite Nat2Z.inj_succ in Hfit.
      rewrite (IH s0 ltac:(lia) Hgap k s Hk) by lia.
      rewrite Nat2Z.inj_succ. lia.
Qed.

Lemma last_cons_default :
  forall (A : Type) (l : list A) (x d : A), last (x :: l) d = last l x.
Proof.
  intros A l; induction l as [|y l IH]; intros x d.
  - reflexivity.
  - change (last (x :: y :: l) d) with (last (y :: l) d).
    rewrite (IH y d). symmetry. apply IH.
Qed.

(** ** The loop of ExtractIndex *)

(** On rows that scan, the loop stops at the first pair its check rejects
    and otherwise collects the column names in row order. *)
Lemma index_loop_scanned :
  forall rs pre,
    map Scan_bool_string_int pre = map (@Scanned _) rs ->
    forall i nonUnique prevSeq columnNames,
      for_range indexBody i pre (nonUnique, prevSeq, columnNames) =
      match first_gap prevSeq (map row_seq rs) with
      | Some (p, s) =>
          Abort (Errorf "Bad SEQ_IN_INDEX, prev is %d, current is %d"
                        [ArgInt p; ArgInt s])
      | None =>
          Next (last (map row_nonUnique rs) nonUnique,
                last (map row_seq rs) prevSeq,
                (columnNames ++ map row_columnName rs)%list)
      end.
Proof.
  induction rs as [|[[nu col] seq] rs IH]; intros [|row pre] Hscan; try discriminate;
    intros i nonUnique prevSeq columnNames.
  - simpl. now rewrite app_nil_r.
  - simpl in Hscan. inversion Hscan as [[Hrow Hpre]].
    cbn [for_range indexBody map row_seq row_nonUnique row_columnName first_gap fst snd].
    rewrite Hrow.
    destruct (Z.eqb_spec seq (int_add prevSeq 1)) as [Heq|Hne]; cbn [negb].
    + rewrite (IH _ Hpre).
      destruct (first_gap seq (map row_seq rs)) as [[p s]|]; [reflexivity|].
      rewrite !last_cons_default, <- app_assoc. reflexivity.
    + reflexivity.
Qed.

(** A loop that ran to its end scanned every row. *)
Lemma index_loop_next :
  forall rows i st st',
    for_range indexBody i rows st = Next st' ->
    exists rs, map Scan_bool_string_int rows = map (@Scanned _) rs.
Proof.
  induction rows as [|row rows IH]; intros i [[nu prev] names] st' H.
  - exists []. reflexivity.
  - simpl in H.
    destruct (Scan_bool_string_int row) as [[[nu' col] seq]|e] eqn:Hrow;
      [|discriminate].
    destruct (negb (seq =? int_add prev 1)%Z); [discriminate|].
    destruct (IH _ _ _ H) as [rs Hrs].
    exists ((nu', col, seq) :: rs). simpl. now rewrite Hrow, Hrs.
Qed.

(** ** The loop of ExtractFK *)

Lemma fk_loop_scanned :
  forall rs pre,
    map Scan_string_int_string_string pre = map (@Scanned _) rs ->
    forall i prevPos refTableName columnNames refColumnNames,
      for_range fkBody i pre (prevPos, refTableName, columnNames, refColumnNames) =
      match first_gap prevPos (map fk_pos rs) with
      | Some (p, s) =>
          Abort (Errorf "Bad ORDINAL_POSITION, prev is %d, current is %d"
                        [ArgInt p; ArgInt s])
      | None =>
          Next (last (map fk_pos rs) prevPos,
                last (map fk_refTableName rs) refTableName,
                (columnNames ++ map fk_columnName rs)%list,
                (refColumnNames ++ map fk_refColumnName rs)%list)
      end.
Proof.
  induction rs as [|[[[col pos] rt] rc] rs IH]; intros [|row pre] Hscan;
    try discriminate; intros i prevPos refTableName columnNames refColumnNames.
  - simpl. now rewrite !app_nil_r.
  - simpl in Hscan. inversion Hscan as [[Hrow Hpre]].
    cbn [for_range fkBody map fk_pos fk_columnName fk_refTableName
         fk_refColumnName first_gap fst snd].
    rewrite Hrow.
    destruct (Z.eqb_spec pos (int_add prevPos 1)) as [Heq|Hne]; cbn [negb].
    + rewrite (IH _ Hpre).
      destruct (first_gap pos (map fk_pos rs)) as [[p s]|]; [reflexivity|].
      rewrite !last_cons_default, <- !app_assoc. reflexivity.
    + reflexivity.
Qed.

Lemma fk_loop_next :
  forall rows i st st',
    for_range fkBody i rows st = Next st' ->
    exists rs, map Scan_string_int_string_string rows = map (@Scanned _) rs.
Proof.
  induction rows as [|row rows IH]; intros i [[[prev rt] names] refs] st' H.
  - exists []. reflexivity.
  - simpl in H.
    destruct (Scan_string_int_string_string row) as [[[[col pos] rt'] rc]|e] eqn:Hrow;
      [|discriminate].
    destruct (negb (pos =? int_add prev 1)%Z); [discriminate|].
    destruct (IH _ _ _ H) as [rs Hrs].
    exists ((col, pos, rt', rc) :: rs). simpl. now rewrite Hrow, Hrs.
Qed.

(** An early [return] of the loops carries the error of [Scan]. *)
Lemma index_loop_ret :
  forall rows i st r,
    for_range indexBody i rows st = Ret r ->
    exists e, r = ([], false, false, Some e).
Proof.
  induction rows as [|row rows IH]; intros i [[nu prev] names] r H; simpl in H.
  - discriminate.
  - destruct (Scan_bool_string_int row) as [[[nu' col] seq]|e].
    + destruct (negb (seq =? int_add prev 1)%Z); [discriminate|].
      exact (IH _ _ _ H).
    + inversion H. eauto.
Qed.

Lemma fk_loop_ret :
  forall rows i st r,
    for_range fkBody i rows st = Ret r ->
    exists e, r = ([], "", [], Some e).
Proof.
  induction rows as [|row rows IH]; intros i [[[prev rt] names] refs] r H;
    simpl in H.
  - discriminate.
  - destruct (Scan_string_int_string_string row) as [[[[col pos] rt'] rc]|e].
    + destruct (negb (pos =? int_add prev 1)%Z); [discriminate|].
      exact (IH _ _ _ H).
    + inversion H. eauto.
Qed.

(** [ExtractIndex] and [ExtractFK] once the database name is known and the
    catalog query has answered. *)
Lemma ExtractIndex_queried :
  forall conn tableName indexName dbName rows,
    extractDBName conn = (dbName, None) ->
    QueryContext conn indexQuery [dbName; tableName; indexName] = inr rows ->
    ExtractIndex conn tableName indexName =
    match for_range indexBody 0 (rows_ rows) (true, 0, nil) with
    | Abort v => Panic v
    | Ret r => Return r
    | Next (nonUnique, _, columnNames) =>
        if (List.length columnNames =? 0)%nat then
          Return (nil, false, false,
                  Some (Errorf "Index %+q in table %+q not found"
                               [ArgString indexName; ArgString tableName]))
        else
          Return (columnNames, indexName =? "PRIMARY", negb nonUnique, None)
    end.
Proof.
  intros conn tableName indexName dbName rows Hdb Hq.
  unfold ExtractIndex. rewrite Hdb, Hq. reflexivity.
Qed.

Lemma ExtractFK_queried :
  forall conn tableName fkName dbName rows,
    extractDBName conn = (dbName, None) ->
    QueryContext conn fkQuery [dbName; tableName; fkName] = inr rows ->
    ExtractFK conn tableName fkName =
    match for_range fkBody 0 (rows_ rows) (0, "", nil, nil) with
    | Abort v => Panic v
    | Ret r => Return r
    | Next (_, refTableName, columnNames, refColumnNames) =>
        if (List.length columnNames =? 0)%nat then
          Return (nil, "", nil,
                  Some (Errorf "FK %+q in table %+q not found"
                               [ArgString fkName; ArgString tableName]))
        else
          Return (columnNames, refTableName, refColumnNames, None)
    end.
Proof.
  intros conn tableName fkName dbName rows Hdb Hq.
  unfold ExtractFK. rewrite Hdb, Hq. reflexivity.
Qed.

(** ** Gaps in the sequence numbers *)

(** C3. When the rows the catalog returns for an index (for a foreign key)
    scan up to a row whose SEQ_IN_INDEX (ORDINAL_POSITION) is not the
    previous one plus one, counting from 1, [ExtractIndex] ([ExtractFK])
    panics with the "Bad SEQ_IN_INDEX" ("Bad ORDINAL_POSITION") error and
    returns nothing.  The rows are fewer than 2^63, the range of Go's
    int. *)
Theorem sequence_gap_panics :
  forall conn tableName name dbName rows pre rest,
    extractDBName conn = (dbName, None) ->
    rows_ rows = (pre ++ rest)%list ->
    Z.of_nat (List.length pre) < 2 ^ 63 ->
    (forall rs,
        QueryContext conn indexQuery [dbName; tableName; name] = inr rows ->
        map Scan_bool_string_int pre = map (@Scanned _) rs ->
        contiguous_from 0 (map row_seq rs) = false ->
        exists p s,
          s <> p + 1 /\
          ExtractIndex conn tableName name =
          Panic (Errorf "Bad SEQ_IN_INDEX, prev is %d, current is %d"
                        [ArgInt p; ArgInt s])) /\
    (forall rs,
        QueryContext conn fkQuery [dbName; tableName; name] = inr rows ->
        map Scan_string_int_string_string pre = map (@Scanned _) rs ->
        contiguous_from 0 (map fk_pos rs) = false ->
        exists p s,
          s <> p + 1 /\
          ExtractFK conn tableName name =
          Panic (Errorf "Bad ORDINAL_POSITION, prev is %d, current is %d"
                        [ArgInt p; ArgInt s])).
Proof.
  intros conn tableName name dbName rows pre rest Hdb Hrows Hlen.
  split; intros rs Hq Hscan Hgap.
  - assert (Hn : List.length rs = List.length pre).
    { rewrite <- (length_map (@Scanned _) rs), <- Hscan. apply length_map. }
    destruct (@first_gap_of_not_contiguous (map row_seq rs) 0) as (p & s & Hfg & Hne);
      [lia | rewrite length_map, Hn; lia | exact Hgap |].
    exists p, s. split; [exact Hne|].
    rewrite (@ExtractIndex_queried _ _ _ _ _ Hdb Hq), Hrows, for_range_app.
    rewrite (@index_loop_scanned _ _ Hscan), Hfg. reflexivity.
  - assert (Hn : List.length rs = List.length pre).
    { rewrite <- (length_map (@Scanned _) rs), <- Hscan. apply length_map. }
    destruct (@first_gap_of_not_contiguous (map fk_pos rs) 0) as (p & s & Hfg & Hne);
      [lia | rewrite length_map, Hn; lia | exact Hgap |].
    exists p, s. split; [exact Hne|].
    rewrite (@ExtractFK_queried _ _ _ _ _ Hdb Hq), Hrows, for_range_app.
    rewrite (@fk_loop_scanned _ _ Hscan), Hfg. reflexivity.
Qed.

(** Index [ix_gap] of table [orders] jumps from 1 to 3 and foreign key
    [fk_gap] starts at 2. *)
Lemma sequence_gap_panics_witness :
  (exists p s,
      s <> p + 1 /\
      ExtractIndex Demo.shop "orders" "ix_gap" =
      Panic (Errorf "Bad SEQ_IN_INDEX, prev is %d, current is %d"
                    [ArgInt p; ArgInt s])) /\
  (exists p s,
      s <> p + 1 /\
      ExtractFK Demo.shop "orders" "fk_gap" =
      Panic (Errorf "Bad ORDINAL_POSITION, prev is %d, current is %d"
                    [ArgInt p; ArgInt s])).
Proof.
  split.
  - apply (proj1 (@sequence_gap_panics Demo.shop "orders" "ix_gap" "shop"
                    (Demo.cursor (Demo.indexRowsOf "ix_gap"))
                    (Demo.indexRowsOf "ix_gap") []
                    eq_refl eq_refl eq_refl)
                 [(true, "a", 1); (true, "c", 3)]);
      reflexivity.
  - apply (proj2 (@sequence_gap_panics Demo.shop "orders" "fk_gap" "shop"
                    (Demo.cursor (Demo.fkRowsOf "fk_gap"))
                    (Demo.fkRowsOf "fk_gap") []
                    eq_refl eq_refl eq_refl)
                 [("x", 2, "t", "x")]);
      reflexivity.
Defined.

(** ** A name the catalog has no rows for *)

(** C6. When the catalog query answers with no rows for the index name
    (for the foreign-key name), [ExtractIndex] ([ExtractFK]) returns the
    "not found" error built from that name and the table name, together
    with no column names and the zero values of its other results. *)
Theorem no_rows_is_not_found :
  forall conn tableName name dbName rows,
    extractDBName conn = (dbName, None) ->
    rows_ rows = [] ->
    (QueryContext conn indexQuery [dbName; tableName; name] = inr rows ->
     ExtractIndex conn tableName name =
     Return ([], false, false,
             Some (Errorf "Index %+q in table %+q not found"
                          [ArgString name; ArgString tableName]))) /\
    (QueryContext conn fkQuery [dbName; tableName; name] = inr rows ->
     ExtractFK conn tableName name =
     Return ([], "", [],
             Some (Errorf "FK %+q in table %+q not found"
                          [ArgString name; ArgString tableName]))).
Proof.
  intros conn tableName name dbName rows Hdb Hrows. split; intros Hq.
  - rewrite (@ExtractIndex_queried _ _ _ _ _ Hdb Hq), Hrows. reflexivity.
  - rewrite (@ExtractFK_queried _ _ _ _ _ Hdb Hq), Hrows. reflexivity.
Qed.

(** Table [orders] has no index and no foreign key called [nope]. *)
Lemma no_rows_is_not_found_witness :
  ExtractIndex Demo.shop "orders" "nope" =
    Return ([], false, false,
            Some (Errorf "Index %+q in table %+q not found"
                         [ArgString "nope"; ArgString "orders"])) /\
  ExtractFK Demo.shop "orders" "nope" =
    Return ([], "", [],
            Some (Errorf "FK %+q in table %+q not found"
                         [ArgString "nope"; ArgString "orders"])).
Proof.
  split.
  - apply (proj1 (@no_rows_is_not_found Demo.shop "orders" "nope" "shop"
                    (Demo.cursor []) eq_refl eq_refl)).
    reflexivity.
  - apply (proj2 (@no_rows_is_not_found Demo.shop "orders" "nope" "shop"
                    (Demo.cursor []) eq_refl eq_refl)).
    reflexivity.
Defined.

(** ** Successful index extraction *)

Lemma last_Forall :
  forall (A : Type) (P : A -> Prop) (l : list A) (d : A),
    Forall P l -> l <> [] -> P (last l d).
Proof.
  intros A P l; induction l as [|x l IH]; intros d Hall Hne.
  - now elim Hne.
  - inversion Hall as [|? ? Hx Hl]; subst.
    destruct l as [|y l]; [exact Hx|].
    change (P (last (y :: l) d)). apply IH; [exact Hl|discriminate].
Qed.

(** What a successful [ExtractIndex] has done: every row of the catalog
    scanned, no pair of sequence numbers was rejected, and the results are
    the column names in row order, the comparison of the name with
    "PRIMARY", and the negation of the last NON_UNIQUE read. *)
Lemma ExtractIndex_returns_inv :
  forall conn tableName indexName columnNames isPrimary isUnique,
    ExtractIndex conn tableName indexName =
      Return (columnNames, isPrimary, isUnique, None) ->
    exists dbName rows rs,
      extractDBName conn = (dbName, None) /\
      QueryContext conn indexQuery [dbName; tableName; indexName] = inr rows /\
      map Scan_bool_string_int (rows_ rows) = map (@Scanned _) rs /\
      first_gap 0 (map row_seq rs) = None /\
      rs <> [] /\
      columnNames = map row_columnName rs /\
      isPrimary = (indexName =? "PRIMARY") /\
      isUnique = negb (last (map row_nonUnique rs) true).
Proof.
  intros conn tableName indexName columnNames isPrimary isUnique H.
  destruct (extractDBName conn) as [dbName [e|]] eqn:Hdb.
  { unfold ExtractIndex in H. rewrite Hdb in H. discriminate. }
  destruct (QueryContext conn indexQuery [dbName; tableName; indexName])
    as [e|rows] eqn:Hq.
  { unfold ExtractIndex in H. rewrite Hdb, Hq in H. discriminate. }
  rewrite (@ExtractIndex_queried _ _ _ _ _ Hdb Hq) in H.
  destruct (for_range indexBody 0 (rows_ rows) (true, 0, []))
    as [[[nonUnique prevSeq] names]|r|v] eqn:Hloop.
  - destruct (index_loop_next _ _ _ Hloop) as [rs Hrs].
    rewrite (@index_loop_scanned _ _ Hrs) in Hloop.
    destruct (first_gap 0 (map row_seq rs)) as [[p s]|] eqn:Hgap;
      [discriminate|].
    inversion Hloop; subst nonUnique prevSeq names. simpl in H.
    destruct rs as [|r0 rs]; [discriminate H|].
    simpl in H. inversion H; subst.
    exists dbName, rows, (r0 :: rs). repeat split; auto. discriminate.
  - destruct (index_loop_ret _ _ _ Hloop) as [e ->]. discriminate.
  - discriminate.
Qed.

(** C9. After a successful [ExtractIndex]: [isPrimary] is true exactly when
    the index name is "PRIMARY"; the column names are those of the catalog
    rows, in row order, and the row at position [k] carries the sequence
    number [k + 1]; an index whose rows all have NON_UNIQUE = 0 comes back
    with [isUnique = true], and with [isPrimary = false] when it is not
    named "PRIMARY". *)
Theorem ExtractIndex_success :
  forall conn tableName indexName columnNames isPrimary isUnique,
    ExtractIndex conn tableName indexName =
      Return (columnNames, isPrimary, isUnique, None) ->
    (isPrimary = true <-> indexName = "PRIMARY") /\
    exists dbName rows rs,
      extractDBName conn = (dbName, None) /\
      QueryContext conn indexQuery [dbName; tableName; indexName] = inr rows /\
      map Scan_bool_string_int (rows_ rows) = map (@Scanned _) rs /\
      columnNames = map row_columnName rs /\
      (forall k r, nth_error rs k = Some r ->
                   Z.of_nat k + 1 < 2 ^ 63 ->
                   row_seq r = Z.of_nat k + 1) /\
      (Forall (fun r => row_nonUnique r = false) rs ->
       isUnique = true /\ (indexName <> "PRIMARY" -> isPrimary = false)).
Proof.
  intros conn tableName indexName columnNames isPrimary isUnique H.
  destruct (ExtractIndex_returns_inv _ _ _ H)
    as (dbName & rows & rs & Hdb & Hq & Hscan & Hgap & Hne & Hcols & HisP & HisU).
  split.
  - rewrite HisP. apply String.eqb_eq.
  - exists dbName, rows, rs.
    split; [exact Hdb|]. split; [exact Hq|]. split; [exact Hscan|].
    split; [exact Hcols|]. split.
    + intros k r Hk Hfit.
      assert (Hs : nth_error (map row_seq rs) k = Some (row_seq r)).
      { rewrite nth_error_map, Hk. reflexivity. }
      rewrite (@first_gap_none_nth _ 0 ltac:(lia) Hgap k _ Hs); lia.
    + intros Hall. split.
      * rewrite HisU.
        assert (Hlast : last (map row_nonUnique rs) true = false).
        { apply (@last_Forall bool (fun b => b = false)).
          - apply Forall_map. exact Hall.
          - destruct rs; [now elim Hne|discriminate]. }
        now rewrite Hlast.
      * intros Hname. rewrite HisP. now apply String.eqb_neq.
Qed.

(** The three-column unique index [uk_abc] of table [orders]. *)
Lemma ExtractIndex_success_witness :
  (false = true <-> "uk_abc" = "PRIMARY") /\
  exists dbName rows rs,
    extractDBName Demo.shop = (dbName, None) /\
    QueryContext Demo.shop indexQuery [dbName; "orders"; "uk_abc"] = inr rows /\
    map Scan_bool_string_int (rows_ rows) = map (@Scanned _) rs /\
    ["a"; "b"; "c"] = map row_columnName rs /\
    (forall k r, nth_error rs k = Some r ->
                 Z.of_nat k + 1 < 2 ^ 63 ->
                 row_seq r = Z.of_nat k + 1) /\
    (Forall (fun r => row_nonUnique r = false) rs ->
     true = true /\ ("uk_abc" <> "PRIMARY" -> false = false)).
Proof.
  apply (@ExtractIndex_success Demo.shop "orders" "uk_abc"
           ["a"; "b"; "c"] false true).
  reflexivity.
Defined.

(** ** Table columns *)

(** C8. [ExtractColumns] on a table name is [ExtractQueryResultColumns] on
    the SELECT * query over the quoted table name: the same results, the
    same errors, the same panics. *)
Theorem ExtractColumns_refines_spec :
  forall conn tableName,
    ExtractColumns conn tableName = ExtractColumns_spec conn tableName /\
    ExtractColumns conn tableName =
    ExtractQueryResultColumns conn ("SELECT * FROM " ++ Quote tableName).
Proof.
  intros conn tableName. split; reflexivity.
Qed.

Example ExtractColumns_flags :
  ExtractColumns Demo.shop "flags" = Return (Demo.flagsCols, None).
Proof. reflexivity. Qed.

(** ** The replace directive *)

Lemma SelectAttrValue_with :
  forall elem,
    SelectAttrValue elem "with" "" =
    match with_attribute elem with
    | Some v => v
    | None => ""
    end.
Proof.
  intros elem. unfold SelectAttrValue, with_attribute.
  induction (Attr_ elem) as [|a attrs IH]; simpl.
  - reflexivity.
  - destruct (Key a =? "with"); [reflexivity|exact IH].
Qed.

(** C7. [Initialize] of the replace directive on an element whose [with]
    attribute is absent or empty returns the error "Missing 'with'
    attribute in <replace> directive" and leaves the directive as it was;
    on an element whose [with] attribute is not empty it returns no error
    and the directive holds the element's text as [origin] and the
    attribute's value as [with]. *)
Theorem replace_Initialize_needs_with :
  forall (DBContext StmtInfo : Type) (ctx : DBContext) (stmt : StmtInfo)
         (d : replaceDirective) (elem : Element),
    (with_attribute elem = None \/ with_attribute elem = Some "" ->
     exists err,
       Initialize ctx stmt d (TokElement elem) = Return (d, Some err) /\
       message err = "Missing 'with' attribute in <replace> directive" /\
       contains "'with' attribute" (message err) = true) /\
    (forall v,
        with_attribute elem = Some v -> v <> "" ->
        Initialize ctx stmt d (TokElement elem) =
        Return ({| origin := Text elem; with_ := v |}, None)).
Proof.
  intros DBContext StmtInfo ctx stmt d elem.
  cbn [Initialize replaceDirective_StmtDirective].
  unfold replaceDirective_Initialize. rewrite SelectAttrValue_with.
  split.
  - intros [-> | ->]; eexists; repeat split; reflexivity.
  - intros v -> Hv. apply String.eqb_neq in Hv. now rewrite Hv.
Qed.

(** [<replace id="r1">], [<replace with="">] and [<replace with="?">]. *)
Lemma replace_Initialize_needs_with_witness :
  (exists err,
      Initialize tt tt {| origin := "o"; with_ := "w" |}
                 (TokElement Demo.replaceElemNoWith) =
        Return ({| origin := "o"; with_ := "w" |}, Some err) /\
      message err = "Missing 'with' attribute in <replace> directive" /\
      contains "'with' attribute" (message err) = true) /\
  (exists err,
      Initialize tt tt {| origin := "o"; with_ := "w" |}
                 (TokElement Demo.replaceElemEmptyWith) =
        Return ({| origin := "o"; with_ := "w" |}, Some err) /\
      message err = "Missing 'with' attribute in <replace> directive" /\
      contains "'with' attribute" (message err) = true) /\
  Initialize tt tt {| origin := ""; with_ := "" |} (TokElement Demo.replaceElem) =
    Return ({| origin := "1+1"; with_ := "?" |}, None).
Proof.
  split; [|split].
  - apply (proj1 (replace_Initialize_needs_with tt tt
                    {| origin := "o"; with_ := "w" |} Demo.replaceElemNoWith)).
    left. reflexivity.
  - apply (proj1 (replace_Initialize_needs_with tt tt
                    {| origin := "o"; with_ := "w" |} Demo.replaceElemEmptyWith)).
    right. reflexivity.
  - apply (proj2 (replace_Initialize_needs_with tt tt
                    {| origin := ""; with_ := "" |} Demo.replaceElem) "?").
    + reflexivity.
    + discriminate.
Defined.

(** ** Chains of directives *)

(** C5. The chain of a text directive initialized on "SELECT ", a replace
    directive initialized on an element with text "1+1" and [with]
    attribute "?", and a text directive initialized on " AS x": the
    [GenerateQuery()] outputs concatenate to "SELECT 1+1 AS x" and the
    [Generate()] outputs to "SELECT ? AS x", no call failing. *)
Theorem select_replace_chain :
  forall (DBContext StmtInfo : Type) (ctx : DBContext) (stmt : StmtInfo)
         (t1 t3 : textDirective) (r2 : replaceDirective) (elem : Element),
    Text elem = "1+1" ->
    with_attribute elem = Some "?" ->
    exists d1 d2 d3,
      Initialize ctx stmt t1 (TokCharData "SELECT ") = Return (d1, None) /\
      Initialize ctx stmt r2 (TokElement elem) = Return (d2, None) /\
      Initialize ctx stmt t3 (TokCharData " AS x") = Return (d3, None) /\
      origin d2 = "1+1" /\ with_ d2 = "?" /\
      probeText [Literal d1; Replace d2; Literal d3] = "SELECT 1+1 AS x" /\
      finalText [Literal d1; Replace d2; Literal d3] = "SELECT ? AS x" /\
      generates [Literal d1; Replace d2; Literal d3].
Proof.
  intros DBContext StmtInfo ctx stmt t1 t3 r2 elem Htext Hwith.
  exists {| data := "SELECT " |}, {| origin := "1+1"; with_ := "?" |},
         {| data := " AS x" |}.
  split; [reflexivity|]. split.
  { cbn [Initialize replaceDirective_StmtDirective].
    unfold replaceDirective_Initialize.
    rewrite SelectAttrValue_with, Hwith, Htext. reflexivity. }
  repeat split; repeat constructor.
Qed.

Lemma select_replace_chain_witness :
  exists d1 d2 d3,
    Initialize tt tt {| data := "" |} (TokCharData "SELECT ") = Return (d1, None) /\
    Initialize tt tt {| origin := ""; with_ := "" |} (TokElement Demo.replaceElem) =
      Return (d2, None) /\
    Initialize tt tt {| data := "" |} (TokCharData " AS x") = Return (d3, None) /\
    origin d2 = "1+1" /\ with_ d2 = "?" /\
    probeText [Literal d1; Replace d2; Literal d3] = "SELECT 1+1 AS x" /\
    finalText [Literal d1; Replace d2; Literal d3] = "SELECT ? AS x" /\
    generates [Literal d1; Replace d2; Literal d3].
Proof.
  apply (@select_replace_chain unit unit tt tt {| data := "" |} {| data := "" |}
           {| origin := ""; with_ := "" |} Demo.replaceElem);
    reflexivity.
Defined.

(** ** The text directive *)

Lemma literal_chain_texts :
  forall ds : list textDirective,
    probeText (map Literal ds) = fold_right append "" (map data ds) /\
    finalText (map Literal ds) = fold_right append "" (map data ds).
Proof.
  unfold probeText, finalText.
  induction ds as [|d ds [IHp IHf]]; simpl.
  - split; reflexivity.
  - rewrite IHp, IHf. split; reflexivity.
Qed.

Lemma literal_chain_generates :
  forall ds : list textDirective, generates (map Literal ds).
Proof.
  unfold generates. induction ds as [|d ds IH]; simpl; constructor.
  - split; reflexivity.
  - exact IH.
Qed.

(** C10. A text directive initialized on character data holds that text;
    [Generate()] and [GenerateQuery()] both return the text it holds with a
    nil error; [ProcessQueryResult] returns nil and leaves the column names
    and types as they are; and for a chain of text directives the probe
    text and the final text are the same text, no call failing. *)
Theorem textDirective_probe_is_final :
  (forall (DBContext StmtInfo : Type) (ctx : DBContext) (stmt : StmtInfo)
          (d : textDirective) (Data : string),
      Initialize ctx stmt d (TokCharData Data) = Return ({| data := Data |}, None)) /\
  (forall d : textDirective,
      Generate d = (data d, None) /\
      GenerateQuery d = (data d, None) /\
      Generate d = GenerateQuery d /\
      forall names types,
        ProcessQueryResult d names types = (names, types, None)) /\
  (forall ds : list textDirective,
      probeText (map Literal ds) = finalText (map Literal ds) /\
      generates (map Literal ds)).
Proof.
  split; [|split].
  - reflexivity.
  - intros d. repeat split.
  - intros ds. destruct (literal_chain_texts ds) as [-> ->].
    split; [reflexivity|apply literal_chain_generates].
Qed.

Example literal_chain :
  probeText (map Literal [ {| data := "SELECT a" |}; {| data := " FROM t" |} ]) =
    "SELECT a FROM t".
Proof. reflexivity. Qed.

(** ** Runs on the [shop] connection *)

Example int_wrap_max : int_add (2 ^ 63 - 1) 1 = - 2 ^ 63.
Proof. reflexivity. Qed.

Example extractDBName_shop : extractDBName Demo.shop = ("shop", None).
Proof. reflexivity. Qed.

Example ExtractIndex_primary :
  ExtractIndex Demo.shop "orders" "PRIMARY" = Return (["id"], true, true, None).
Proof. reflexivity. Qed.

Example ExtractIndex_uk_abc :
  ExtractIndex Demo.shop "orders" "uk_abc" =
  Return (["a"; "b"; "c"], false, true, None).
Proof. reflexivity. Qed.

Example ExtractIndex_ix_gap :
  ExtractIndex Demo.shop "orders" "ix_gap" =
  Panic (Errorf "Bad SEQ_IN_INDEX, prev is %d, current is %d" [ArgInt 1; ArgInt 3]).
Proof. reflexivity. Qed.

Example ExtractFK_fk_customer :
  ExtractFK Demo.shop "orders" "fk_customer" =
  Return (["customer_id"; "customer_region"], "customers", ["id"; "region"], None).
Proof. reflexivity. Qed.

Example ExtractFK_fk_gap :
  ExtractFK Demo.shop "orders" "fk_gap" =
  Panic (Errorf "Bad ORDINAL_POSITION, prev is %d, current is %d" [ArgInt 0; ArgInt 2]).
Proof. reflexivity. Qed.

Example ExtractQueryResultColumns_shapes :
  ExtractQueryResultColumns Demo.shop "SELECT * FROM `shapes`" =
  Panic (Errorf "Unknown column type: scantype=%#v databaseTypeName=%+q"
                [ArgType scanTypeNullFloat; ArgString "DECIMAL"]).
Proof. reflexivity. Qed.

Example ExtractQueryResultColumns_syntax_error :
  ExtractQueryResultColumns Demo.shop "SELEC 1" =
  Return ([], Some (ExternalError "Error 1064: You have an error in your SQL syntax")).
Proof. reflexivity. Qed.

(* ===================================================================== *)
(** * Further properties of the driver                                    *)
(* ===================================================================== *)

Import MysqlNames.

(** ** The database name *)

(** X1. [extractDBName] returns a nil error exactly when the scan of
    SELECT DATABASE() succeeded with a non-empty string, and it then
    returns that string: it never returns an empty name with a nil error,
    and a NULL database is the error "No db selected". *)
Theorem extractDBName_nil_error_iff :
  forall conn name,
    extractDBName conn = (name, None) <->
    (name <> "" /\
     exists valid,
       Scan_NullString (QueryRowContext conn "SELECT DATABASE()" []) =
       Scanned {| String_ := name; Valid := valid |}).
Proof.
  intros conn name. unfold extractDBName.
  destruct (Scan_NullString (QueryRowContext conn "SELECT DATABASE()" []))
    as [[s valid]|e]; cbn [String_].
  - destruct (String.eqb_spec s "") as [->|Hs]; split.
    + discriminate.
    + intros [Hne [v Hv]]. inversion Hv; subst. now elim Hne.
    + intros H; inversion H; subst. split; [exact Hs|eauto].
    + intros [_ [v Hv]]. inversion Hv; subst. reflexivity.
  - split; [discriminate|]. intros [_ [v Hv]]. discriminate.
Qed.

Example extractDBName_detached :
  extractDBName DemoNames.detached = ("", Some (Errorf "No db selected" [])).
Proof. reflexivity. Qed.

(** ** Rows that scan and rows that do not *)

(** Every cursor either scans to its end or has a first row whose scan
    fails. *)
Lemma scan_all_or_first_failure :
  forall (A : Type) (scan : Row -> scanned A) (rows : list Row),
    (exists vs, map scan rows = map (@Scanned _) vs) \/
    (exists pre vs row e rest,
        rows = (pre ++ row :: rest)%list /\
        map scan pre = map (@Scanned _) vs /\
        scan row = ScanFailed e).
Proof.
  intros A scan rows; induction rows as [|row rows IH].
  - left. exists []. reflexivity.
  - destruct (scan row) as [v|e] eqn:Hrow.
    + destruct IH as [[vs Hvs] | (pre & vs & row' & e & rest & -> & Hpre & Hrow')].
      * left. exists (v :: vs). simpl. now rewrite Hrow, Hvs.
      * right. exists (row :: pre), (v :: vs), row', e, rest.
        simpl. rewrite Hrow, Hpre. auto.
    + right. exists [], [], row, e, rows. auto.
Qed.

Section NameLoops.
Variable Scan_string : Row -> scanned string.

Lemma name_loop_scanned :
  forall names rows,
    map Scan_string rows = map (@Scanned _) names ->
    forall i acc,
      for_range (nameBody Scan_string) i rows acc = Next (acc ++ names)%list.
Proof.
  induction names as [|name names IH]; intros [|row rows] Hscan; try discriminate;
    intros i acc; simpl.
  - now rewrite app_nil_r.
  - simpl in Hscan. inversion Hscan as [[Hrow Hrows]].
    unfold nameBody at 1. rewrite Hrow, (IH _ Hrows), <- app_assoc. reflexivity.
Qed.

Lemma name_loop_failed :
  forall pre names row e rest,
    map Scan_string pre = map (@Scanned _) names ->
    Scan_string row = ScanFailed e ->
    forall i acc,
      for_range (nameBody Scan_string) i (pre ++ row :: rest) acc =
      Ret ([], Some e).
Proof.
  intros pre names row e rest Hpre Hrow i acc.
  rewrite for_range_app, (@name_loop_scanned _ _ Hpre). simpl.
  unfold nameBody. now rewrite Hrow.
Qed.

(** What the loop that collects names ends with. *)
Lemma name_loop_cases :
  forall rows,
    (exists names,
        map Scan_string rows = map (@Scanned _) names /\
        for_range (nameBody Scan_string) 0 rows [] = Next names) \/
    (exists e, for_range (nameBody Scan_string) 0 rows [] = Ret ([], Some e)).
Proof.
  intros rows.
  destruct (scan_all_or_first_failure Scan_string rows)
    as [[names Hn] | (pre & vs & row & e & rest & -> & Hpre & Hrow)].
  - left. exists names. split; [exact Hn|]. exact (@name_loop_scanned _ _ Hn 0%nat []).
  - right. exists e. exact (@name_loop_failed _ _ _ _ rest Hpre Hrow 0%nat []).
Qed.

End NameLoops.

(** ** The extractors of table, index and foreign-key names *)

Section NameExtractors.
Variable Scan_string : Row -> scanned string.

(** X2. When every row of the catalog's answer scans, [ExtractTableNames],
    [ExtractIndexNames] and [ExtractFKNames] return the scanned names in
    row order, one per row, with a nil error. *)
Theorem name_extractors_collect_in_order :
  forall conn tableName dbName rows names,
    extractDBName conn = (dbName, None) ->
    map Scan_string (rows_ rows) = map (@Scanned _) names ->
    (QueryContext conn tableNamesQuery [dbName] = inr rows ->
     ExtractTableNames Scan_string conn = Return (names, None)) /\
    (QueryContext conn indexNamesQuery [dbName; tableName] = inr rows ->
     ExtractIndexNames Scan_string conn tableName = Return (names, None)) /\
    (QueryContext conn fkNamesQuery [dbName; tableName] = inr rows ->
     ExtractFKNames Scan_string conn tableName = Return (names, None)).
Proof.
  intros conn tableName dbName rows names Hdb Hscan.
  pose proof (@name_loop_scanned Scan_string _ _ Hscan 0%nat []) as Hloop.
  simpl in Hloop.
  repeat split; intros Hq.
  - unfold ExtractTableNames. now rewrite Hdb, Hq, Hloop.
  - unfold ExtractIndexNames. now rewrite Hdb, Hq, Hloop.
  - unfold ExtractFKNames. now rewrite Hdb, Hq, Hloop.
Qed.

(** X3. When a row of the catalog's answer fails to scan, the rows before
    it having scanned, [ExtractTableNames], [ExtractIndexNames] and
    [ExtractFKNames] return the error of that scan and a nil list: the
    names collected so far are dropped and the rows after it are not
    read. *)
Theorem name_extractors_all_or_nothing :
  forall conn tableName dbName rows pre names row e rest,
    extractDBName conn = (dbName, None) ->
    rows_ rows = (pre ++ row :: rest)%list ->
    map Scan_string pre = map (@Scanned _) names ->
    Scan_string row = ScanFailed e ->
    (QueryContext conn tableNamesQuery [dbName] = inr rows ->
     ExtractTableNames Scan_string conn = Return ([], Some e)) /\
    (QueryContext conn indexNamesQuery [dbName; tableName] = inr rows ->
     ExtractIndexNames Scan_string conn tableName = Return ([], Some e)) /\
    (QueryContext conn fkNamesQuery [dbName; tableName] = inr rows ->
     ExtractFKNames Scan_string conn tableName = Return ([], Some e)).
Proof.
  intros conn tableName dbName rows pre names row e rest Hdb Hrows Hpre Hrow.
  pose proof (@name_loop_failed Scan_string _ _ _ _ rest Hpre Hrow 0%nat [])
    as Hloop.
  rewrite <- Hrows in Hloop.
  repeat split; intros Hq.
  - unfold ExtractTableNames. now rewrite Hdb, Hq, Hloop.
  - unfold ExtractIndexNames. now rewrite Hdb, Hq, Hloop.
  - unfold ExtractFKNames. now rewrite Hdb, Hq, Hloop.
Qed.

(** The loop of [ExtractAutoIncColumn] reads the first row only. *)
Lemma autoInc_loop :
  forall rows i columnName,
    for_range_break (autoIncBody Scan_string) i rows columnName =
    match rows with
    | [] => Next columnName
    | row :: _ =>
        match Scan_string row with
        | Scanned name => Next name
        | ScanFailed e => Ret ("", Some e)
        end
    end.
Proof.
  intros [|row rows] i columnName; simpl; [reflexivity|].
  unfold autoIncBody. destruct (Scan_string row); reflexivity.
Qed.

(** X4. [ExtractAutoIncColumn] reads at most the first row of the catalog's
    answer: with no row it returns the empty name and a nil error; with a
    first row that scans it returns that row's name, whatever rows follow;
    with a first row that fails to scan it returns the empty name and the
    error of the scan. *)
Theorem ExtractAutoIncColumn_first_row :
  forall conn tableName dbName rows,
    extractDBName conn = (dbName, None) ->
    QueryContext conn autoIncQuery [dbName; tableName; "%auto_increment%"] =
      inr rows ->
    ExtractAutoIncColumn Scan_string conn tableName =
    match rows_ rows with
    | [] => Return ("", None)
    | row :: _ =>
        match Scan_string row with
        | Scanned name => Return (name, None)
        | ScanFailed e => Return ("", Some e)
        end
    end.
Proof.
  intros conn tableName dbName rows Hdb Hq.
  unfold ExtractAutoIncColumn. rewrite Hdb, Hq, autoInc_loop.
  destruct (rows_ rows) as [|row rest]; [reflexivity|].
  destruct (Scan_string row); reflexivity.
Qed.

(** X5. The four extractors of names never panic, and when they return an
    error they return it with a nil list (an empty name for
    [ExtractAutoIncColumn]). *)
Theorem name_extractors_never_panic :
  forall conn tableName,
    (exists names err,
        ExtractTableNames Scan_string conn = Return (names, err) /\
        (err <> None -> names = [])) /\
    (exists names err,
        ExtractIndexNames Scan_string conn tableName = Return (names, err) /\
        (err <> None -> names = [])) /\
    (exists names err,
        ExtractFKNames Scan_string conn tableName = Return (names, err) /\
        (err <> None -> names = [])) /\
    (exists name err,
        ExtractAutoIncColumn Scan_string conn tableName = Return (name, err) /\
        (err <> None -> name = "")).
Proof.
  intros conn tableName.
  unfold ExtractTableNames, ExtractIndexNames, ExtractFKNames,
    ExtractAutoIncColumn.
  destruct (extractDBName conn) as [dbName [e|]].
  { repeat split; eexists; eexists; split; reflexivity || auto. }
  repeat split.
  - destruct (QueryContext conn tableNamesQuery [dbName]) as [e|rows].
    { eexists; eexists; split; reflexivity || auto. }
    destruct (name_loop_cases Scan_string (rows_ rows))
      as [(names & _ & ->) | (e & ->)];
      eexists; eexists; split; try reflexivity; auto.
    intros H; now elim H.
  - destruct (QueryContext conn indexNamesQuery [dbName; tableName]) as [e|rows].
    { eexists; eexists; split; reflexivity || auto. }
    destruct (name_loop_cases Scan_string (rows_ rows))
      as [(names & _ & ->) | (e & ->)];
      eexists; eexists; split; try reflexivity; auto.
    intros H; now elim H.
  - destruct (QueryContext conn fkNamesQuery [dbName; tableName]) as [e|rows].
    { eexists; eexists; split; reflexivity || auto. }
    destruct (name_loop_cases Scan_string (rows_ rows))
      as [(names & _ & ->) | (e & ->)];
      eexists; eexists; split; try reflexivity; auto.
    intros H; now elim H.
  - destruct (QueryContext conn autoIncQuery [dbName; tableName; "%auto_increment%"])
      as [e|rows].
    { eexists; eexists; split; reflexivity || auto. }
    rewrite autoInc_loop.
    destruct (rows_ rows) as [|row rest].
    { eexists; eexists; split; [reflexivity|]. intros H; now elim H. }
    destruct (Scan_string row) as [name|e];
      eexists; eexists; split; try reflexivity; auto.
    intros H; now elim H.
Qed.

(** X6. When [extractDBName] fails, be it that no database is selected,
    each of the six catalog extractors returns that error with the zero
    values of its other results, whatever the catalog would answer. *)
Theorem no_database_no_extraction :
  forall conn tableName name n e,
    extractDBName conn = (n, Some e) ->
    ExtractTableNames Scan_string conn = Return ([], Some e) /\
    ExtractAutoIncColumn Scan_string conn tableName = Return ("", Some e) /\
    ExtractIndexNames Scan_string conn tableName = Return ([], Some e) /\
    ExtractIndex conn tableName name = Return ([], false, false, Some e) /\
    ExtractFKNames Scan_string conn tableName = Return ([], Some e) /\
    ExtractFK conn tableName name = Return ([], "", [], Some e).
Proof.
  intros conn tableName name n e Hdb.
  unfold ExtractTableNames, ExtractAutoIncColumn, ExtractIndexNames,
    ExtractIndex, ExtractFKNames, ExtractFK.
  rewrite Hdb. repeat split.
Qed.

(** When the catalog query itself fails, each of the six extractors
    returns the query's error unchanged with the zero values of its other
    results. *)
Lemma catalog_query_error_is_returned :
  forall conn tableName name dbName e,
    extractDBName conn = (dbName, None) ->
    (QueryContext conn tableNamesQuery [dbName] = inl e ->
     ExtractTableNames Scan_string conn = Return ([], Some e)) /\
    (QueryContext conn autoIncQuery [dbName; tableName; "%auto_increment%"] = inl e ->
     ExtractAutoIncColumn Scan_string conn tableName = Return ("", Some e)) /\
    (QueryContext conn indexNamesQuery [dbName; tableName] = inl e ->
     ExtractIndexNames Scan_string conn tableName = Return ([], Some e)) /\
    (QueryContext conn indexQuery [dbName; tableName; name] = inl e ->
     ExtractIndex conn tableName name = Return ([], false, false, Some e)) /\
    (QueryContext conn fkNamesQuery [dbName; tableName] = inl e ->
     ExtractFKNames Scan_string conn tableName = Return ([], Some e)) /\
    (QueryContext conn fkQuery [dbName; tableName; name] = inl e ->
     ExtractFK conn tableName name = Return ([], "", [], Some e)).
Proof.
  intros conn tableName name dbName e Hdb.
  unfold ExtractTableNames, ExtractAutoIncColumn, ExtractIndexNames,
    ExtractIndex, ExtractFKNames, ExtractFK.
  rewrite Hdb. repeat split; intros ->; reflexivity.
Qed.

End NameExtractors.

(** Runs on the connection [DemoNames.names]. *)

Lemma name_extractors_collect_in_order_witness :
  ExtractTableNames DemoNames.scanString DemoNames.names =
    Return (["customers"; "orders"], None).
Proof.
  apply (proj1 (@name_extractors_collect_in_order DemoNames.scanString
                  DemoNames.names "orders" "shop"
                  (Demo.cursor [DemoNames.nameRow "customers";
                                DemoNames.nameRow "orders"])
                  ["customers"; "orders"] eq_refl eq_refl)).
  reflexivity.
Defined.

Lemma name_extractors_all_or_nothing_witness :
  ExtractIndexNames DemoNames.scanString DemoNames.names "orders" =
    Return ([], Some (ExternalError
                        "sql: Scan error: converting NULL to string is unsupported")).
Proof.
  apply (proj1 (proj2 (@name_extractors_all_or_nothing DemoNames.scanString
                  DemoNames.names "orders" "shop"
                  (Demo.cursor [DemoNames.nameRow "PRIMARY"; DemoNames.nameRow "uk_abc";
                                DemoNames.nullRow; DemoNames.nameRow "ix"])
                  [DemoNames.nameRow "PRIMARY"; DemoNames.nameRow "uk_abc"]
                  ["PRIMARY"; "uk_abc"] DemoNames.nullRow _ [DemoNames.nameRow "ix"]
                  eq_refl eq_refl eq_refl eq_refl))).
  reflexivity.
Defined.

Lemma ExtractAutoIncColumn_first_row_witness :
  ExtractAutoIncColumn DemoNames.scanString DemoNames.names "orders" =
    Return ("id", None).
Proof.
  apply (@ExtractAutoIncColumn_first_row DemoNames.scanString DemoNames.names
           "orders" "shop"
           (Demo.cursor [DemoNames.nameRow "id"; DemoNames.nameRow "serial"]));
    reflexivity.
Defined.

Lemma no_database_no_extraction_witness :
  ExtractTableNames DemoNames.scanString DemoNames.detached =
    Return ([], Some (Errorf "No db selected" [])) /\
  ExtractAutoIncColumn DemoNames.scanString DemoNames.detached "orders" =
    Return ("", Some (Errorf "No db selected" [])) /\
  ExtractIndexNames DemoNames.scanString DemoNames.detached "orders" =
    Return ([], Some (Errorf "No db selected" [])) /\
  ExtractIndex DemoNames.detached "orders" "PRIMARY" =
    Return ([], false, false, Some (Errorf "No db selected" [])) /\
  ExtractFKNames DemoNames.scanString DemoNames.detached "orders" =
    Return ([], Some (Errorf "No db selected" [])) /\
  ExtractFK DemoNames.detached "orders" "PRIMARY" =
    Return ([], "", [], Some (Errorf "No db selected" [])).
Proof.
  apply (@no_database_no_extraction DemoNames.scanString DemoNames.detached
           "orders" "PRIMARY" "" (Errorf "No db selected" [])).
  reflexivity.
Defined.

(** ** Index and foreign-key extraction: errors and success *)

(** What a successful [ExtractFK] has done. *)
Lemma ExtractFK_returns_inv :
  forall conn tableName fkName columnNames refTableName refColumnNames,
    ExtractFK conn tableName fkName =
      Return (columnNames, refTableName, refColumnNames, None) ->
    exists dbName rows rs,
      extractDBName conn = (dbName, None) /\
      QueryContext conn fkQuery [dbName; tableName; fkName] = inr rows /\
      map Scan_string_int_string_string (rows_ rows) = map (@Scanned _) rs /\
      first_gap 0 (map fk_pos rs) = None /\
      rs <> [] /\
      columnNames = map fk_columnName rs /\
      refTableName = last (map fk_refTableName rs) "" /\
      refColumnNames = map fk_refColumnName rs.
Proof.
  intros conn tableName fkName columnNames refTableName refColumnNames H.
  destruct (extractDBName conn) as [dbName [e|]] eqn:Hdb.
  { unfold ExtractFK in H. rewrite Hdb in H. discriminate. }
  destruct (QueryContext conn fkQuery [dbName; tableName; fkName])
    as [e|rows] eqn:Hq.
  { unfold ExtractFK in H. rewrite Hdb, Hq in H. discriminate. }
  rewrite (@ExtractFK_queried _ _ _ _ _ Hdb Hq) in H.
  destruct (for_range fkBody 0 (rows_ rows) (0, "", [], []))
    as [[[[prevPos rt] names] refs]|r|v] eqn:Hloop.
  - destruct (fk_loop_next _ _ _ Hloop) as [rs Hrs].
    rewrite (@fk_loop_scanned _ _ Hrs) in Hloop.
    destruct (first_gap 0 (map fk_pos rs)) as [[p s]|] eqn:Hgap;
      [discriminate|].
    inversion Hloop; subst prevPos rt names refs. simpl in H.
    destruct rs as [|r0 rs]; [discriminate H|].
    simpl in H. inversion H; subst.
    exists dbName, rows, (r0 :: rs). repeat split; auto. discriminate.
  - destruct (fk_loop_ret _ _ _ Hloop) as [e ->]. discriminate.
  - discriminate.
Qed.



(** X8. [ExtractIndex] and [ExtractFK] never return an error together with
    data, nor a nil error with an empty column list: with an error, the
    column lists are nil, both flags are false and the referenced table is
    empty; with a nil error, the column list has at least one name. *)
Theorem index_and_fk_results_are_all_or_nothing :
  forall conn tableName name,
    (forall columnNames isPrimary isUnique err,
        ExtractIndex conn tableName name =
          Return (columnNames, isPrimary, isUnique, err) ->
        match err with
        | Some _ => columnNames = [] /\ isPrimary = false /\ isUnique = false
        | None => columnNames <> []
        end) /\
    (forall columnNames refTableName refColumnNames err,
        ExtractFK conn tableName name =
          Return (columnNames, refTableName, refColumnNames, err) ->
        match err with
        | Some _ => columnNames = [] /\ refTableName = "" /\ refColumnNames = []
        | None => columnNames <> [] /\ refColumnNames <> []
        end).
Proof.
  intros conn tableName name. split.
  - intros columnNames isPrimary isUnique [e|] H.
    + unfold ExtractIndex in H.
      destruct (extractDBName conn) as [dbName [e0|]];
        [inversion H; auto|].
      destruct (QueryContext conn indexQuery [dbName; tableName; name])
        as [e0|rows]; [inversion H; auto|].
      destruct (for_range indexBody 0 (rows_ rows) (true, 0, []))
        as [[[nu prev] names]|r|v] eqn:Hloop.
      * destruct (List.length names =? 0)%nat; inversion H; auto.
      * destruct (index_loop_ret _ _ _ Hloop) as [e1 ->]. inversion H; auto.
      * discriminate.
    + destruct (ExtractIndex_returns_inv _ _ _ H)
        as (dbName & rows & rs & _ & _ & _ & _ & Hne & -> & _).
      destruct rs; [now elim Hne|discriminate].
  - intros columnNames refTableName refColumnNames [e|] H.
    + unfold ExtractFK in H.
      destruct (extractDBName conn) as [dbName [e0|]];
        [inversion H; auto|].
      destruct (QueryContext conn fkQuery [dbName; tableName; name])
        as [e0|rows]; [inversion H; auto|].
      destruct (for_range fkBody 0 (rows_ rows) (0, "", [], []))
        as [[[[prev rt] names] refs]|r|v] eqn:Hloop.
      * destruct (List.length names =? 0)%nat; inversion H; auto.
      * destruct (fk_loop_ret _ _ _ Hloop) as [e1 ->]. inversion H; auto.
      * discriminate.
    + destruct (ExtractFK_returns_inv _ _ _ H)
        as (dbName & rows & rs & _ & _ & _ & _ & Hne & -> & _ & ->).
      destruct rs; [now elim Hne|split; discriminate].
Qed.

Lemma index_and_fk_results_are_all_or_nothing_witness :
  (["a"; "b"; "c"] <> []) /\
  ([] = [] :> list string /\ "" = "" /\ [] = [] :> list string).
Proof.
  split.
  - apply (proj1 (index_and_fk_results_are_all_or_nothing Demo.shop "orders" "uk_abc")
                 ["a"; "b"; "c"] false true None).
    reflexivity.
  - apply (proj2 (index_and_fk_results_are_all_or_nothing Demo.shop "orders" "nope")
                 [] "" []
                 (Some (Errorf "FK %+q in table %+q not found"
                               [ArgString "nope"; ArgString "orders"]))).
    reflexivity.
Defined.

(** X9. A row that fails to scan, after rows that scanned and passed the
    sequence check, makes [ExtractIndex] and [ExtractFK] return the error
    of that scan with nil results instead of panicking; the rows after it,
    gaps in their numbering included, are not read. *)
Theorem scan_failure_is_returned :
  forall conn tableName name dbName rows pre row e rest,
    extractDBName conn = (dbName, None) ->
    rows_ rows = (pre ++ row :: rest)%list ->
    (forall rs,
        QueryContext conn indexQuery [dbName; tableName; name] = inr rows ->
        map Scan_bool_string_int pre = map (@Scanned _) rs ->
        first_gap 0 (map row_seq rs) = None ->
        Scan_bool_string_int row = ScanFailed e ->
        ExtractIndex conn tableName name = Return ([], false, false, Some e)) /\
    (forall rs,
        QueryContext conn fkQuery [dbName; tableName; name] = inr rows ->
        map Scan_string_int_string_string pre = map (@Scanned _) rs ->
        first_gap 0 (map fk_pos rs) = None ->
        Scan_string_int_string_string row = ScanFailed e ->
        ExtractFK conn tableName name = Return ([], "", [], Some e)).
Proof.
  intros conn tableName name dbName rows pre row e rest Hdb Hrows.
  split; intros rs Hq Hscan Hgap Hrow.
  - rewrite (@ExtractIndex_queried _ _ _ _ _ Hdb Hq), Hrows, for_range_app.
    rewrite (@index_loop_scanned _ _ Hscan), Hgap. simpl. now rewrite Hrow.
  - rewrite (@ExtractFK_queried _ _ _ _ _ Hdb Hq), Hrows, for_range_app.
    rewrite (@fk_loop_scanned _ _ Hscan), Hgap. simpl. now rewrite Hrow.
Qed.

(** On [DemoNames.names] the second index row does not scan; the third,
    numbered 7, is never reached. *)
Lemma scan_failure_is_returned_witness :
  ExtractIndex DemoNames.names "orders" "ix" =
    Return ([], false, false, Some (ExternalError "sql: Scan error")).
Proof.
  apply (proj1 (@scan_failure_is_returned DemoNames.names "orders" "ix" "shop"
                  (Demo.cursor [Demo.indexRow false "a" 1; Demo.blankRow;
                                Demo.indexRow false "c" 7])
                  [Demo.indexRow false "a" 1] Demo.blankRow _
                  [Demo.indexRow false "c" 7] eq_refl eq_refl)
               [(false, "a", 1)]);
    reflexivity.
Defined.

(** ** More on column classification *)

Ltac case_goal :=
  simpl;
  repeat match goal with
         | |- context [if ?b then _ else _] => destruct b
         end.

Ltac not_in_list :=
  let H := fresh in
  simpl; intros H;
  repeat (destruct H as [H|H]; [congruence|]); exact H.

(** X10. The switch panics on uncovered (scan type, type name) pairs only:
    on every pair the decision table covers it assigns a data type,
    whatever the length and the unsigned flag. *)
Theorem columnDataType_panics_only_uncovered :
  forall scanType databaseTypeName length isUnsigned v,
    columnDataType scanType databaseTypeName length isUnsigned = Panic v ->
    uncovered scanType databaseTypeName /\
    v = Errorf "Unknown column type: scantype=%#v databaseTypeName=%+q"
               [ArgType scanType; ArgString databaseTypeName].
Proof.
  intros st name len u v H.
  destruct st; simpl in H;
    try (case_switch H; discriminate H);
    try (inversion H; split; [constructor|reflexivity]).
  - revert H.
    destruct (String.eqb_spec name "FLOAT"); [discriminate|].
    destruct (String.eqb_spec name "DOUBLE"); [discriminate|].
    intros H; inversion H. split; [|reflexivity]. constructor. not_in_list.
  - revert H.
    destruct (String.eqb_spec name "TINYINT"); [case_goal; discriminate|].
    destruct (String.eqb_spec name "SMALLINT"); [case_goal; discriminate|].
    destruct (String.eqb_spec name "YEAR"); [case_goal; discriminate|].
    destruct (String.eqb_spec name "MEDIUMINT"); [case_goal; discriminate|].
    destruct (String.eqb_spec name "INT"); [case_goal; discriminate|].
    destruct (String.eqb_spec name "BIGINT"); [case_goal; discriminate|].
    intros H; inversion H. split; [|reflexivity]. constructor. not_in_list.
Qed.

Lemma columnDataType_panics_only_uncovered_witness :
  uncovered scanTypeNullInt "DECIMAL" /\
  Errorf "Unknown column type: scantype=%#v databaseTypeName=%+q"
         [ArgType scanTypeNullInt; ArgString "DECIMAL"] =
  Errorf "Unknown column type: scantype=%#v databaseTypeName=%+q"
         [ArgType scanTypeNullInt; ArgString "DECIMAL"].
Proof.
  apply (@columnDataType_panics_only_uncovered scanTypeNullInt "DECIMAL" 10 true).
  reflexivity.
Defined.

(** X11. [DataTypes] has no dead entry: each of its names is the data type
    the switch assigns to some column. *)
Theorem DataTypes_all_assigned :
  forall dataType,
    In dataType DataTypes ->
    exists scanType databaseTypeName length isUnsigned,
      columnDataType scanType databaseTypeName length isUnsigned =
      Return dataType.
Proof.
  intros dt H. unfold DataTypes, DataTypes_var in H. simpl in H.
  repeat (destruct H as [<-|H]);
    first
      [ contradiction
      | exists scanTypeFloat32, "", 0, false; reflexivity
      | exists scanTypeFloat64, "", 0, false; reflexivity
      | exists scanTypeInt8, "", 1, false; reflexivity
      | exists scanTypeInt8, "", 4, false; reflexivity
      | exists scanTypeUint8, "", 0, false; reflexivity
      | exists scanTypeInt16, "", 0, false; reflexivity
      | exists scanTypeUint16, "", 0, false; reflexivity
      | exists scanTypeInt32, "", 0, false; reflexivity
      | exists scanTypeUint32, "", 0, false; reflexivity
      | exists scanTypeInt64, "", 0, false; reflexivity
      | exists scanTypeUint64, "", 0, false; reflexivity
      | exists scanTypeNullTime, "", 0, false; reflexivity
      | exists scanTypeRawBytes, "BIT", 0, false; reflexivity
      | exists scanTypeRawBytes, "JSON", 0, false; reflexivity
      | exists scanTypeRawBytes, "", 0, false; reflexivity ].
Qed.

Lemma DataTypes_all_assigned_witness :
  exists scanType databaseTypeName length isUnsigned,
    columnDataType scanType databaseTypeName length isUnsigned = Return "json".
Proof.
  apply (@DataTypes_all_assigned "json"). unfold DataTypes, DataTypes_var.
  in_list.
Defined.

(** The unsigned flag is bit 5 of the field's flags. *)
Lemma isUnsigned_is_bit_5 :
  forall field, isUnsigned field = Z.testbit (flags_ field) 5.
Proof.
  intros field. unfold isUnsigned, flagUnsigned.
  change (Z.shiftl 1 5) with (2 ^ 5).
  assert (Hland : Z.land (flags_ field) (2 ^ 5) =
                  if Z.testbit (flags_ field) 5 then 2 ^ 5 else 0).
  { apply Z.bits_inj'. intros n Hn.
    rewrite Z.land_spec, Z.pow2_bits_eqb by lia.
    destruct (Z.testbit (flags_ field) 5) eqn:Hbit.
    - rewrite Z.pow2_bits_eqb by lia.
      destruct (Z.eqb_spec 5 n) as [Hn5|Hn5].
      + subst n. now rewrite Hbit.
      + apply andb_false_r.
    - rewrite Z.bits_0.
      destruct (Z.eqb_spec 5 n) as [Hn5|Hn5].
      + subst n. now rewrite Hbit.
      + apply andb_false_r. }
  rewrite Hland. destruct (Z.testbit (flags_ field) 5); reflexivity.
Qed.

(** X12. Of a field's flags the loop reads bit 5 and nothing else: two
    result sets whose fields at position [i] have the same length and the
    same bit 5 in their flags are classified alike at that position,
    whatever their other flags. *)
Theorem classification_reads_bit_5_of_flags :
  forall rows rows' i ct acc field field',
    nth_error (rs_columns rows) i = Some field ->
    nth_error (rs_columns rows') i = Some field' ->
    length_ field = length_ field' ->
    Z.testbit (flags_ field) 5 = Z.testbit (flags_ field') 5 ->
    columnBody rows i ct acc = columnBody rows' i ct acc.
Proof.
  intros rows rows' i ct acc field field' Hf Hf' Hlen Hbit.
  unfold columnBody. rewrite Hf, Hf'. cbv zeta.
  fold (isUnsigned field). fold (isUnsigned field').
  now rewrite !isUnsigned_is_bit_5, Hlen, Hbit.
Qed.

(** A NOT NULL, unsigned, zero-filled field and a bare unsigned one. *)
Lemma classification_reads_bit_5_of_flags_witness :
  columnBody {| ColumnTypes := inr []; rows_ := [];
                rs_columns := [ {| length_ := 3; flags_ := 97 |} ] |}
             0 {| Name := "n"; DatabaseTypeName := "TINYINT";
                  ScanType_ := scanTypeNullInt |} [] =
  columnBody {| ColumnTypes := inr []; rows_ := [];
                rs_columns := [ {| length_ := 3; flags_ := 32 |} ] |}
             0 {| Name := "n"; DatabaseTypeName := "TINYINT";
                  ScanType_ := scanTypeNullInt |} [].
Proof.
  apply (@classification_reads_bit_5_of_flags _ _ 0%nat _ _
           {| length_ := 3; flags_ := 97 |} {| length_ := 3; flags_ := 32 |});
    reflexivity.
Defined.

(** The loop keeps the column types, in order. *)
Lemma columns_loop_ColumnTypes :
  forall rows cts i acc cols,
    for_range (columnBody rows) i cts acc = Next cols ->
    map ColumnType_ cols = (map ColumnType_ acc ++ cts)%list.
Proof.
  intros rows cts; induction cts as [|ct cts IH]; intros i acc cols; simpl.
  - intros H; inversion H; subst. now rewrite app_nil_r.
  - destruct (columnBody rows i ct acc) as [acc'| |] eqn:E; try discriminate.
    intros Hloop.
    destruct (columnBody_next _ _ _ _ E) as (f & dt & _ & _ & ->).
    rewrite (IH _ _ _ Hloop), map_app, <- app_assoc. reflexivity.
Qed.

(** X13. What [ExtractQueryResultColumns] returns is all or nothing.  With
    a nil error it returns one classified column per column type of the
    result set, in the result set's order, each carrying its column type.
    With an error it returns no column, and the error is the one of the
    query or the one of [ColumnTypes()]. *)
Theorem ExtractQueryResultColumns_all_or_nothing :
  forall conn query cols err,
    ExtractQueryResultColumns conn query = Return (cols, err) ->
    match err with
    | None =>
        exists rows cts,
          QueryContext conn query [] = inr rows /\
          ColumnTypes rows = inr cts /\
          map ColumnType_ cols = cts
    | Some e =>
        cols = [] /\
        (QueryContext conn query [] = inl e \/
         exists rows,
           QueryContext conn query [] = inr rows /\ ColumnTypes rows = inl e)
    end.
Proof.
  intros conn query cols err H.
  destruct err as [e|].
  - unfold ExtractQueryResultColumns in H.
    destruct (QueryContext conn query []) as [e0|rows] eqn:Hq.
    { inversion H; subst. auto. }
    destruct (ColumnTypes rows) as [e0|cts] eqn:Hc.
    { inversion H; subst. split; [reflexivity|]. right. exists rows. auto. }
    destruct (for_range (columnBody rows) 0 cts []) as [cs|r|v] eqn:Hl;
      try discriminate.
    exfalso. revert Hl. apply for_range_no_ret, columnBody_no_ret.
  - destruct (ExtractQueryResultColumns_return _ _ H)
      as [[_ Hne] | (_ & rows & cts & Hq & Hc & Hloop)]; [now elim Hne|].
    exists rows, cts. repeat split; auto.
    exact (columns_loop_ColumnTypes _ _ _ _ Hloop).
Qed.

Lemma ExtractQueryResultColumns_all_or_nothing_witness :
  (exists rows cts,
      QueryContext Demo.shop "SELECT * FROM `flags`" [] = inr rows /\
      ColumnTypes rows = inr cts /\
      map ColumnType_ Demo.flagsCols = cts) /\
  ([] = [] :> list Col /\
   (QueryContext Demo.shop "SELEC 1" [] =
      inl (ExternalError "Error 1064: You have an error in your SQL syntax") \/
    exists rows,
      QueryContext Demo.shop "SELEC 1" [] = inr rows /\
      ColumnTypes rows =
        inl (ExternalError "Error 1064: You have an error in your SQL syntax"))).
Proof.
  split.
  - apply (@ExtractQueryResultColumns_all_or_nothing Demo.shop
             "SELECT * FROM `flags`" Demo.flagsCols None).
    reflexivity.
  - apply (@ExtractQueryResultColumns_all_or_nothing Demo.shop "SELEC 1" []
             (Some (ExternalError "Error 1064: You have an error in your SQL syntax"))).
    reflexivity.
Defined.

(* ===================================================================== *)
(** * Further properties of the directives                                *)
(* ===================================================================== *)

Import Registry.

(** ** The registry of factories *)

Lemma RegistDirective_lookup :
  forall factory tags m tag,
    RegistDirective factory tags m tag =
    if existsb (String.eqb tag) tags then Some factory else m tag.
Proof.
  intros factory tags; unfold RegistDirective.
  induction tags as [|t tags IH]; intros m tag; simpl.
  - reflexivity.
  - rewrite IH. unfold store.
    destruct (existsb (String.eqb tag) tags); [now rewrite orb_true_r|].
    rewrite orb_false_r. reflexivity.
Qed.

Lemma existsb_eqb_In :
  forall tag tags, existsb (String.eqb tag) tags = true <-> In tag tags.
Proof.
  intros tag tags. rewrite existsb_exists. split.
  - intros (t & Hin & Heq). apply String.eqb_eq in Heq. now subst.
  - intros Hin. exists tag. split; [exact Hin|apply String.eqb_refl].
Qed.

Lemma RegistDirective_listed :
  forall factory tags m tag,
    In tag tags -> RegistDirective factory tags m tag = Some factory.
Proof.
  intros factory tags m tag H. rewrite RegistDirective_lookup.
  apply existsb_eqb_In in H. now rewrite H.
Qed.

Lemma RegistDirective_unlisted :
  forall factory tags m tag,
    ~ In tag tags -> RegistDirective factory tags m tag = m tag.
Proof.
  intros factory tags m tag H. rewrite RegistDirective_lookup.
  destruct (existsb (String.eqb tag) tags) eqn:E; [|reflexivity].
  apply existsb_eqb_In in E. contradiction.
Qed.

(** X14. After [RegistDirective(factory, tags...)] every listed tag maps
    to [factory] and every other tag maps to what it mapped to before;
    with no tag the registry is left as it was. *)
Theorem RegistDirective_registers_exactly_the_tags :
  forall factory tags m tag,
    (In tag tags -> RegistDirective factory tags m tag = Some factory) /\
    (~ In tag tags -> RegistDirective factory tags m tag = m tag).
Proof.
  intros factory tags m tag. split.
  - apply RegistDirective_listed.
  - apply RegistDirective_unlisted.
Qed.

Lemma RegistDirective_registers_exactly_the_tags_witness :
  RegistDirective replaceFactory ["replace"; "repl"] directiveFactories "repl" =
    Some replaceFactory /\
  RegistDirective replaceFactory ["replace"; "repl"] directiveFactories "bind" =
    directiveFactories "bind".
Proof.
  split.
  - apply (proj1 (RegistDirective_registers_exactly_the_tags
                    replaceFactory ["replace"; "repl"] directiveFactories "repl")).
    in_list.
  - apply (proj2 (RegistDirective_registers_exactly_the_tags
                    replaceFactory ["replace"; "repl"] directiveFactories "bind")).
    not_in_list.
Defined.

(** X15. The last registration wins: a tag registered twice maps to the
    factory of the second call, while a tag only the first call listed
    keeps the first call's factory. *)
Theorem RegistDirective_last_wins :
  forall first second tags1 tags2 m tag,
    (In tag tags2 ->
     RegistDirective second tags2 (RegistDirective first tags1 m) tag =
     Some second) /\
    (In tag tags1 -> ~ In tag tags2 ->
     RegistDirective second tags2 (RegistDirective first tags1 m) tag =
     Some first).
Proof.
  intros first second tags1 tags2 m tag. split.
  - intros H2. now apply RegistDirective_listed.
  - intros H1 H2. rewrite RegistDirective_unlisted by exact H2.
    now apply RegistDirective_listed.
Qed.

Lemma RegistDirective_last_wins_witness :
  RegistDirective (fun _ => Literal {| data := "x" |}) ["replace"]
    (RegistDirective replaceFactory ["replace"; "repl"] directiveFactories)
    "replace" = Some (fun _ => Literal {| data := "x" |}) /\
  RegistDirective (fun _ => Literal {| data := "x" |}) ["replace"]
    (RegistDirective replaceFactory ["replace"; "repl"] directiveFactories)
    "repl" = Some replaceFactory.
Proof.
  split.
  - apply (proj1 (RegistDirective_last_wins replaceFactory
                    (fun _ => Literal {| data := "x" |})
                    ["replace"; "repl"] ["replace"] directiveFactories "replace")).
    in_list.
  - apply (proj2 (RegistDirective_last_wins replaceFactory
                    (fun _ => Literal {| data := "x" |})
                    ["replace"; "repl"] ["replace"] directiveFactories "repl")).
    + in_list.
    + not_in_list.
Defined.

(** ** The replace directive, from the registry to the query texts *)

Lemma replaceDirective_Initialize_cases :
  forall (DBContext StmtInfo : Type) (ctx : DBContext) (stmt : StmtInfo)
         (d : replaceDirective) (elem : Element),
    replaceDirective_Initialize ctx stmt d (TokElement elem) =
    match with_attribute elem with
    | None => Return (d, Some (Errorf "Missing 'with' attribute in <replace> directive" []))
    | Some v =>
        if v =? "" then
          Return (d, Some (Errorf "Missing 'with' attribute in <replace> directive" []))
        else Return ({| origin := Text elem; with_ := v |}, None)
    end.
Proof.
  intros DBContext StmtInfo ctx stmt d elem.
  unfold replaceDirective_Initialize. rewrite SelectAttrValue_with.
  destruct (with_attribute elem) as [v|]; reflexivity.
Qed.

(** X16. After the package's [init], the tag "replace" maps to a factory
    whose directive, initialized on an element with a non-empty [with]
    attribute, contributes the element's text to the probe query and the
    attribute's value to the final query; [init] leaves every other tag as
    it was. *)
Theorem replace_registered_and_usable :
  forall (DBContext StmtInfo : Type) (ctx : DBContext) (stmt : StmtInfo)
         (m : Factories) (elem : Element) (v : string),
    with_attribute elem = Some v ->
    v <> "" ->
    (forall tag, tag <> "replace" -> init m tag = m tag) /\
    exists factory d,
      init m "replace" = Some factory /\
      call_Initialize ctx stmt (factory tt) (TokElement elem) = Return (d, None) /\
      call_GenerateQuery d = (Text elem, None) /\
      call_Generate d = (v, None).
Proof.
  intros DBContext StmtInfo ctx stmt m elem v Hwith Hv. split.
  - intros tag Htag. unfold init.
    apply RegistDirective_unlisted.
    intros [H|[]]. now elim Htag.
  - exists replaceFactory,
      (Replace {| origin := Text elem; with_ := v |}).
    split; [reflexivity|]. split; [|split; reflexivity].
    unfold call_Initialize, replaceFactory, Replace.
    cbn [dyn_value dyn_methods dyn_type].
    cbn [Initialize replaceDirective_StmtDirective].
    rewrite replaceDirective_Initialize_cases, Hwith.
    apply String.eqb_neq in Hv. now rewrite Hv.
Qed.

Lemma replace_registered_and_usable_witness :
  (forall tag, tag <> "replace" -> init directiveFactories tag = directiveFactories tag) /\
  exists factory d,
    init directiveFactories "replace" = Some factory /\
    call_Initialize tt tt (factory tt) (TokElement Demo.replaceElem) =
      Return (d, None) /\
    call_GenerateQuery d = (Text Demo.replaceElem, None) /\
    call_Generate d = ("?", None).
Proof.
  apply (@replace_registered_and_usable unit unit tt tt directiveFactories
           Demo.replaceElem "?").
  - reflexivity.
  - discriminate.
Defined.

(** ** Tokens of the wrong kind *)

(** X17. [Initialize] of the text directive returns on character data
    only, and [Initialize] of the replace directive on elements only: on
    any other kind of token the type assertion panics. *)
Theorem Initialize_returns_on_its_token_kind_only :
  forall (DBContext StmtInfo : Type) (ctx : DBContext) (stmt : StmtInfo)
         (tok : Token),
    (forall d : textDirective,
        (exists res, Initialize ctx stmt d tok = Return res) <->
        (exists Data, tok = TokCharData Data)) /\
    (forall d : replaceDirective,
        (exists res, Initialize ctx stmt d tok = Return res) <->
        (exists elem, tok = TokElement elem)).
Proof.
  intros DBContext StmtInfo ctx stmt tok. split; intros d; split.
  - intros [res H]. destruct tok; try discriminate H. eauto.
  - intros [Data ->]. eexists. reflexivity.
  - intros [res H]. destruct tok; try discriminate H. eauto.
  - intros [elem ->]. cbn [Initialize replaceDirective_StmtDirective].
    rewrite replaceDirective_Initialize_cases.
    destruct (with_attribute elem) as [v|]; [destruct (v =? "")|]; eauto.
Qed.

Example textDirective_on_element :
  Initialize tt tt {| data := "" |} (TokElement Demo.replaceElem) =
  Panic (ExternalError "interface conversion: etree.Token is not *etree.CharData").
Proof. reflexivity. Qed.

(** ** What an initialized replace directive generates *)

(** X18. Whenever [Initialize] of the replace directive returns a nil
    error, the directive it leaves never generates an empty fragment for
    the final query: [Generate()] returns the non-empty value of the
    element's [with] attribute and [GenerateQuery()] the element's text,
    both with a nil error.  Whenever it returns an error, the directive is
    left as it was. *)
Theorem replace_Initialize_outcomes :
  forall (DBContext StmtInfo : Type) (ctx : DBContext) (stmt : StmtInfo)
         (d d' : replaceDirective) (tok : Token) (err : option error),
    Initialize ctx stmt d tok = Return (d', err) ->
    match err with
    | None =>
        exists elem v,
          tok = TokElement elem /\
          with_attribute elem = Some v /\ v <> "" /\
          Generate d' = (v, None) /\
          GenerateQuery d' = (Text elem, None)
    | Some _ => d' = d
    end.
Proof.
  intros DBContext StmtInfo ctx stmt d d' tok err H.
  destruct tok as [elem| | | |]; try discriminate H.
  cbn [Initialize replaceDirective_StmtDirective] in H.
  rewrite replaceDirective_Initialize_cases in H.
  destruct (with_attribute elem) as [v|] eqn:Hwith.
  - destruct (String.eqb_spec v "") as [->|Hv]; inversion H; subst.
    + reflexivity.
    + exists elem, v. repeat split; auto.
  - inversion H; subst. reflexivity.
Qed.

Lemma replace_Initialize_outcomes_witness :
  (exists elem v,
      TokElement Demo.replaceElem = TokElement elem /\
      with_attribute elem = Some v /\ v <> "" /\
      Generate {| origin := "1+1"; with_ := "?" |} = (v, None) /\
      GenerateQuery {| origin := "1+1"; with_ := "?" |} = (Text elem, None)) /\
  {| origin := "o"; with_ := "w" |} = {| origin := "o"; with_ := "w" |}.
Proof.
  split.
  - apply (@replace_Initialize_outcomes unit unit tt tt
             {| origin := ""; with_ := "" |} {| origin := "1+1"; with_ := "?" |}
             (TokElement Demo.replaceElem) None).
    reflexivity.
  - apply (@replace_Initialize_outcomes unit unit tt tt
             {| origin := "o"; with_ := "w" |} {| origin := "o"; with_ := "w" |}
             (TokElement Demo.replaceElemEmptyWith)
             (Some (Errorf "Missing 'with' attribute in <replace> directive" []))).
    reflexivity.
Defined.

(* ===================================================================== *)
(** * Properties of the renderer's helpers                                *)
(* ===================================================================== *)

Import Render MoreProps.

(** ** stripSuffix *)

Lemma LastIndexByte_absent :
  forall c s, has_byte c s = false -> LastIndexByte s c = -1.
Proof.
  intros c s; induction s as [|a s IH]; simpl; intros H.
  - reflexivity.
  - apply orb_false_iff in H. destruct H as [Ha Hs].
    rewrite (IH Hs), Ha. reflexivity.
Qed.

Lemma LastIndexByte_last :
  forall c a b,
    has_byte c b = false ->
    LastIndexByte (a ++ String c b) c = Z.of_nat (String.length a).
Proof.
  intros c a b Hb; induction a as [|x a IH].
  - simpl. rewrite (LastIndexByte_absent _ _ Hb), Ascii.eqb_refl. reflexivity.
  - cbn [append LastIndexByte String.length]. rewrite IH.
    destruct (Z.leb_spec 0 (Z.of_nat (String.length a))); lia.
Qed.

Lemma substring_prefix :
  forall a b, substring 0 (String.length a) (a ++ b) = a.
Proof.
  induction a as [|x a IH]; intros b; simpl.
  - destruct b; reflexivity.
  - now rewrite IH.
Qed.

Lemma has_byte_split :
  forall c s,
    has_byte c s = true ->
    exists a b, s = a ++ String c b /\ has_byte c b = false.
Proof.
  intros c s; induction s as [|x s IH]; simpl; intros H.
  - discriminate.
  - destruct (has_byte c s) eqn:Hs.
    + destruct (IH eq_refl) as (a & b & -> & Hb).
      exists (String x a), b. auto.
    + rewrite orb_false_r in H. apply Ascii.eqb_eq in H. subst x.
      exists "", s. auto.
Qed.

Lemma stripSuffix_app :
  forall base ext,
    has_byte "."%char ext = false ->
    stripSuffix (base ++ String "."%char ext) = base.
Proof.
  intros base ext Hext. unfold stripSuffix.
  rewrite (LastIndexByte_last _ base _ Hext).
  destruct (Z.ltb_spec (Z.of_nat (String.length base)) 0); [lia|].
  rewrite Nat2Z.id. apply substring_prefix.
Qed.

(** X19. [stripSuffix] undoes the appending of an extension: for an
    extension without a dot, [stripSuffix(base + "." + ext)] is [base],
    dots inside [base] included. *)
Theorem stripSuffix_strips_the_last_extension :
  forall base ext,
    has_byte "."%char ext = false ->
    stripSuffix (base ++ "." ++ ext) = base.
Proof.
  intros base ext Hext. exact (stripSuffix_app base ext Hext).
Qed.

Lemma stripSuffix_strips_the_last_extension_witness :
  stripSuffix ("orders.v2" ++ "." ++ "xml") = "orders.v2".
Proof.
  apply (@stripSuffix_strips_the_last_extension "orders.v2" "xml").
  reflexivity.
Defined.

(** X20. What [stripSuffix] returns on every name: a name without a dot
    comes back unchanged; a name with a dot loses its last dot and what
    follows it, which has no dot, and nothing else. *)
Theorem stripSuffix_cases :
  forall s,
    if has_byte "."%char s then
      exists ext,
        has_byte "."%char ext = false /\ s = stripSuffix s ++ "." ++ ext
    else stripSuffix s = s.
Proof.
  intros s. destruct (has_byte "."%char s) eqn:Hdot.
  - destruct (has_byte_split _ _ Hdot) as (a & b & -> & Hb).
    exists b. split; [exact Hb|]. now rewrite (stripSuffix_app a b Hb).
  - unfold stripSuffix. now rewrite (LastIndexByte_absent _ _ Hdot).
Qed.

Example stripSuffix_dotfile : stripSuffix ".gitignore" = "".
Proof. reflexivity. Qed.

Example stripSuffix_trailing_dot : stripSuffix "a.b." = "a.b".
Proof. reflexivity. Qed.

(** ** NewRenderer *)

Section NewRendererProps.
Variables Loader FileSystem DBInfo ScanTypeMap Template : Type.
Variable path_Base : string -> string.

Local Abbreviation Renderer' := (Renderer Loader FileSystem DBInfo ScanTypeMap Template).
Local Abbreviation Option' := (Option Loader FileSystem DBInfo ScanTypeMap Template).
Local Abbreviation zero := (zeroRenderer Loader FileSystem DBInfo ScanTypeMap Template).

Lemma options_loop_applied :
  forall (opts : list Option') (r r' : Renderer') i,
    applied opts r = Some r' ->
    for_range (@optionBody _ _ _ _ _) i opts r = Next r'.
Proof.
  induction opts as [|op opts IH]; intros r r' i H; simpl in *.
  - now inversion H.
  - unfold optionBody at 1. destruct (op r) as [r1 [e|]]; [discriminate|].
    now apply IH.
Qed.

Lemma options_loop_cases :
  forall (opts : list Option') (r : Renderer') i,
    (exists r', applied opts r = Some r' /\
                for_range (@optionBody _ _ _ _ _) i opts r = Next r') \/
    (exists e, applied opts r = None /\
               for_range (@optionBody _ _ _ _ _) i opts r = Ret (None, Some e)).
Proof.
  induction opts as [|op opts IH]; intros r i; simpl.
  - left. eauto.
  - unfold optionBody at 1 3. destruct (op r) as [r1 [e|]].
    + right. eauto.
    + apply IH.
Qed.

(** X21. [NewRenderer] returns a renderer exactly with a nil error, and
    the renderer it returns has a loader, a template file system, a
    non-empty output directory, a non-empty package name unless
    [path.Base] returned an empty one, and at most one of whitelist and
    blacklist non-empty.  A nil renderer always comes with an error. *)
Theorem NewRenderer_returns_a_valid_renderer :
  forall (opts : list Option') res err,
    NewRenderer path_Base opts = Return (res, err) ->
    match res with
    | Some r =>
        err = None /\
        loader r <> None /\ tmplFS r <> None /\ outputDir r <> "" /\
        (outputPkg r = "" -> path_Base (outputDir r) = "") /\
        (whitelist r = [] \/ blacklist r = [])
    | None => err <> None
    end.
Proof.
  intros opts res err H. unfold NewRenderer in H.
  destruct (options_loop_cases opts zero 0) as [(r & _ & Hl) | (e & _ & Hl)];
    rewrite Hl in H.
  - destruct (loader r) as [l|] eqn:Hload; [|inversion H; discriminate].
    destruct (tmplFS r) as [fs|] eqn:Hfs; [|inversion H; discriminate].
    destruct (String.eqb_spec (outputDir r) "") as [Hdir|Hdir];
      [inversion H; discriminate|].
    cbv zeta in H.
    destruct (String.eqb_spec (outputPkg r) "") as [Hpkg|Hpkg];
      cbn [whitelist blacklist] in H.
    + destruct (whitelist r) as [|w ws] eqn:Hw;
        [|destruct (blacklist r) as [|b bs] eqn:Hb];
        cbn in H; inversion H; subst; try discriminate;
        cbn [loader tmplFS outputDir outputPkg whitelist blacklist];
        rewrite ?Hload, ?Hfs; repeat split; auto; discriminate.
    + destruct (whitelist r) as [|w ws] eqn:Hw;
        [|destruct (blacklist r) as [|b bs] eqn:Hb];
        cbn in H; inversion H; subst; try discriminate;
        rewrite ?Hload, ?Hfs, ?Hw, ?Hb; repeat split; auto;
        try discriminate; intros Hp; now elim Hpkg.
  - inversion H. discriminate.
Qed.

(** X22. The options are applied in order to one renderer, each seeing
    what the ones before it left, and the first option that fails ends
    [NewRenderer]: it returns that option's error and a nil renderer,
    without applying the options after it and without checking the
    renderer. *)
Theorem NewRenderer_stops_at_the_first_failing_option :
  forall (pre rest : list Option') (op : Option') (r1 r2 : Renderer') e,
    applied pre zero = Some r1 ->
    op r1 = (r2, Some e) ->
    NewRenderer path_Base (pre ++ op :: rest) = Return (None, Some e).
Proof.
  intros pre rest op r1 r2 e Hpre Hop. unfold NewRenderer.
  rewrite for_range_app, (@options_loop_applied _ _ _ _ Hpre). simpl.
  unfold optionBody. now rewrite Hop.
Qed.

(** X23. When no option fails and the options leave a loader, a template
    file system, a non-empty output directory and not both a whitelist and
    a blacklist, [NewRenderer] returns the renderer the options left, with
    the package name they set or, when they set none, the base name of the
    output directory. *)
Theorem NewRenderer_accepts_and_defaults_the_package :
  forall (opts : list Option') (r : Renderer'),
    applied opts zero = Some r ->
    loader r <> None ->
    tmplFS r <> None ->
    outputDir r <> "" ->
    whitelist r = [] \/ blacklist r = [] ->
    NewRenderer path_Base opts =
    Return (Some (if outputPkg r =? "" then withPkg (path_Base (outputDir r)) r
                  else r), None).
Proof.
  intros opts r Happ Hload Hfs Hdir Hlists. unfold NewRenderer, withPkg.
  rewrite (@options_loop_applied _ _ _ _ Happ).
  destruct (loader r) as [l|]; [|now elim Hload].
  destruct (tmplFS r) as [fs|]; [|now elim Hfs].
  apply String.eqb_neq in Hdir. rewrite Hdir. cbv zeta.
  destruct (outputPkg r =? ""); cbn [whitelist blacklist];
    destruct Hlists as [-> | ->]; cbn;
    rewrite ?andb_false_r; reflexivity.
Qed.

End NewRendererProps.

(** Both a whitelist and a blacklist: no renderer, and an error. *)
Lemma NewRenderer_returns_a_valid_renderer_witness :
  Some (Errorf "Only one of whitelist or blacklist can be specified" []) <> None.
Proof.
  exact (@NewRenderer_returns_a_valid_renderer unit unit unit unit unit
           DemoNames.baseName
           [DemoNames.setLoader; DemoNames.setFS; DemoNames.setOutputDir "gen/models";
            DemoNames.setWhitelist ["orders"]; DemoNames.setBlacklist ["tmp"]]
           None
           (Some (Errorf "Only one of whitelist or blacklist can be specified" []))
           eq_refl).
Defined.

Lemma NewRenderer_stops_at_the_first_failing_option_witness :
  NewRenderer DemoNames.baseName
    ([DemoNames.setLoader] ++ DemoNames.failing :: [DemoNames.setFS]) =
  Return (None, Some (ExternalError "bad option")).
Proof.
  apply (@NewRenderer_stops_at_the_first_failing_option unit unit unit unit unit
           DemoNames.baseName [DemoNames.setLoader] [DemoNames.setFS]
           DemoNames.failing
           (fst (DemoNames.setLoader (zeroRenderer unit unit unit unit unit)))
           (fst (DemoNames.setLoader (zeroRenderer unit unit unit unit unit))));
    reflexivity.
Defined.

Lemma NewRenderer_accepts_and_defaults_the_package_witness :
  exists r : DemoNames.R,
    NewRenderer DemoNames.baseName
      [DemoNames.setLoader; DemoNames.setFS; DemoNames.setOutputDir "gen/models";
       DemoNames.setWhitelist ["orders"]] = Return (Some r, None) /\
    outputPkg r = "models" /\ whitelist r = ["orders"].
Proof.
  eexists. split.
  - apply (@NewRenderer_accepts_and_defaults_the_package unit unit unit unit unit
             DemoNames.baseName
             [DemoNames.setLoader; DemoNames.setFS; DemoNames.setOutputDir "gen/models";
              DemoNames.setWhitelist ["orders"]]
             {| loader := Some tt; tmplFS := Some tt; stmtDir := "";
                outputDir := "gen/models"; outputPkg := "";
                whitelist := ["orders"]; blacklist := [];
                db := None; scanTypeMap := None; templates := fun _ => None |}).
    + reflexivity.
    + discriminate.
    + discriminate.
    + discriminate.
    + right. reflexivity.
  - split; reflexivity.
Defined.

(* ===================================================================== *)
(** * Two more properties of the index and foreign-key loops              *)
(* ===================================================================== *)

(** X24. [isUnique] is decided by the last row alone: after a successful
    [ExtractIndex] it is the negation of the NON_UNIQUE column of the last
    row of the catalog's answer, whatever the rows before it say. *)
Theorem ExtractIndex_isUnique_from_last_row :
  forall conn tableName indexName columnNames isPrimary isUnique,
    ExtractIndex conn tableName indexName =
      Return (columnNames, isPrimary, isUnique, None) ->
    exists dbName rows rs lastRow,
      extractDBName conn = (dbName, None) /\
      QueryContext conn indexQuery [dbName; tableName; indexName] = inr rows /\
      map Scan_bool_string_int (rows_ rows) = map (@Scanned _) (rs ++ [lastRow]) /\
      isUnique = negb (row_nonUnique lastRow).
Proof.
  intros conn tableName indexName columnNames isPrimary isUnique H.
  destruct (ExtractIndex_returns_inv _ _ _ H)
    as (dbName & rows & rs & Hdb & Hq & Hscan & _ & Hne & _ & _ & HisU).
  destruct (exists_last Hne) as (rs' & lastRow & ->).
  exists dbName, rows, rs', lastRow.
  repeat split; auto.
  rewrite HisU, map_app. cbn [map]. rewrite last_last. reflexivity.
Qed.

Lemma ExtractIndex_isUnique_from_last_row_witness :
  exists dbName rows rs lastRow,
    extractDBName Demo.shop = (dbName, None) /\
    QueryContext Demo.shop indexQuery [dbName; "orders"; "uk_abc"] = inr rows /\
    map Scan_bool_string_int (rows_ rows) = map (@Scanned _) (rs ++ [lastRow]) /\
    true = negb (row_nonUnique lastRow).
Proof.
  apply (@ExtractIndex_isUnique_from_last_row Demo.shop "orders" "uk_abc"
           ["a"; "b"; "c"] false true).
  reflexivity.
Defined.

(** X25. The panic of the sequence check reports the first pair the check
    rejects: when the rows scan up to a row whose number is not the
    previous number plus one in Go's int arithmetic, the error of
    [ExtractIndex] and of [ExtractFK] carries that previous number (0 for
    the first row) and that row's number. *)
Theorem sequence_panic_reports_first_rejected_pair :
  forall conn tableName name dbName rows pre rest p s,
    extractDBName conn = (dbName, None) ->
    rows_ rows = (pre ++ rest)%list ->
    (forall rs,
        QueryContext conn indexQuery [dbName; tableName; name] = inr rows ->
        map Scan_bool_string_int pre = map (@Scanned _) rs ->
        first_gap 0 (map row_seq rs) = Some (p, s) ->
        ExtractIndex conn tableName name =
        Panic (Errorf "Bad SEQ_IN_INDEX, prev is %d, current is %d"
                      [ArgInt p; ArgInt s])) /\
    (forall rs,
        QueryContext conn fkQuery [dbName; tableName; name] = inr rows ->
        map Scan_string_int_string_string pre = map (@Scanned _) rs ->
        first_gap 0 (map fk_pos rs) = Some (p, s) ->
        ExtractFK conn tableName name =
        Panic (Errorf "Bad ORDINAL_POSITION, prev is %d, current is %d"
                      [ArgInt p; ArgInt s])).
Proof.
  intros conn tableName name dbName rows pre rest p s Hdb Hrows.
  split; intros rs Hq Hscan Hgap.
  - rewrite (@ExtractIndex_queried _ _ _ _ _ Hdb Hq), Hrows, for_range_app.
    rewrite (@index_loop_scanned _ _ Hscan), Hgap. reflexivity.
  - rewrite (@ExtractFK_queried _ _ _ _ _ Hdb Hq), Hrows, for_range_app.
    rewrite (@fk_loop_scanned _ _ Hscan), Hgap. reflexivity.
Qed.

Lemma sequence_panic_reports_first_rejected_pair_witness :
  ExtractIndex Demo.shop "orders" "ix_gap" =
    Panic (Errorf "Bad SEQ_IN_INDEX, prev is %d, current is %d"
                  [ArgInt 1; ArgInt 3]).
Proof.
  apply (proj1 (@sequence_panic_reports_first_rejected_pair Demo.shop "orders"
                  "ix_gap" "shop" (Demo.cursor (Demo.indexRowsOf "ix_gap"))
                  (Demo.indexRowsOf "ix_gap") [] 1 3 eq_refl eq_refl)
               [(true, "a", 1); (true, "c", 3)]);
    reflexivity.
Defined.
